(** * extract_colors.py: the page colour extractor

    A shallow embedding of [src/extract_colors.py]: the three scripts that
    [extract_colors_from_page] evaluates in the page, the Python filter over
    their results, and the control flow of [main] (try / except / finally
    around navigation, extraction, the JSON dump and the screenshots).

    Conventions.
    - A [str] of either language is a [string]; one [ascii] stands for one
      code point, so the model covers text whose code points are below 256.
    - A value that crosses from the page to Python, or that Python hands to
      [json.dump], is a [pyval]: [None], a [str], a [list] or a [dict].  A
      [dict] (and a JS object with string keys) is an association list in
      insertion order, updated in place by [Dict.set].
    - A call that may raise returns a [result]; [main] runs in [action],
      which also logs what the run does to the outside world. *)

From Stdlib Require Import String Ascii List Bool Arith Lia DecimalString.
Import ListNotations.
Open Scope string_scope.

(** ** Exceptions and results *)

Inductive exn : Type :=
| ReferenceError (name : string)      (* JS: unbound identifier *)
| JsTypeError (msg : string)          (* JS: e.g. calling a non-function *)
| DOMException (name msg : string)    (* JS: SecurityError, SyntaxError *)
| PlaywrightError (msg : string)      (* Python: navigation, protocol *)
| PyTypeError (msg : string)
| PyAttributeError (msg : string)
| PyKeyError (key : string)
| OSError (msg : string).

Inductive result (A : Type) : Type :=
| Ok (a : A)
| Raise (e : exn).
Arguments Ok {A} a.
Arguments Raise {A} e.

Definition bind {A B} (m : result A) (f : A -> result B) : result B :=
  match m with
  | Ok a => f a
  | Raise e => Raise e
  end.

Declare Scope res_scope.
Delimit Scope res_scope with res.
Notation "'do' x <- m ; k" := (bind m (fun x => k))
  (at level 10, x name, m at level 100, k at level 200) : res_scope.

(** Text of an exception, as [str(e)] / [String(e)] would give it. *)
Definition exn_message (e : exn) : string :=
  match e with
  | ReferenceError n => "ReferenceError: " ++ n ++ " is not defined"
  | JsTypeError m => "TypeError: " ++ m
  | DOMException n m => n ++ ": " ++ m
  | PlaywrightError m => m
  | PyTypeError m => m
  | PyAttributeError m => m
  | PyKeyError k => "'" ++ k ++ "'"
  | OSError m => m
  end.

(** ** Strings *)

Module Str.

(** [s.startsWith(p)] *)
Definition startsWith (s p : string) : bool := String.prefix p s.

(** [s.includes(sub)] in JS, [sub in s] in Python. *)
Fixpoint includes (s sub : string) : bool :=
  String.prefix sub s ||
  match s with
  | EmptyString => false
  | String _ s' => includes s' sub
  end.

(** White space removed by [String.prototype.trim] (code points < 256):
    TAB, LF, VT, FF, CR, SPACE, NBSP. *)
Definition is_space (c : ascii) : bool :=
  let n := nat_of_ascii c in
  (((9 <=? n) && (n <=? 13)) || (n =? 32) || (n =? 160))%nat.

Fixpoint trim_start (s : string) : string :=
  match s with
  | EmptyString => EmptyString
  | String c s' => if is_space c then trim_start s' else s
  end.

Fixpoint trim_end (s : string) : string :=
  match s with
  | EmptyString => EmptyString
  | String c s' =>
      match trim_end s' with
      | EmptyString => if is_space c then EmptyString else String c EmptyString
      | t => String c t
      end
  end.

Definition trim (s : string) : string := trim_end (trim_start s).

(** [str.lower] on code points below 256: A-Z and the Latin-1 capitals
    U+00C0..U+00DE (without the multiplication sign U+00D7) move up by 32. *)
Definition lower_char (c : ascii) : ascii :=
  let n := nat_of_ascii c in
  if (((65 <=? n) && (n <=? 90)) ||
      ((192 <=? n) && (n <=? 222) && negb (n =? 215)))%nat
  then ascii_of_nat (n + 32) else c.

Fixpoint lower (s : string) : string :=
  match s with
  | EmptyString => EmptyString
  | String c s' => String (lower_char c) (lower s')
  end.

(** [s[:n]] / [s.slice(0, n)] *)
Fixpoint take (n : nat) (s : string) : string :=
  match n, s with
  | S n', String c s' => String c (take n' s')
  | _, _ => EmptyString
  end.

End Str.

(** ** Values shared by the page scripts and Python *)

Unset Elimination Schemes.
Inductive pyval : Type :=
| PNone
| PStr (s : string)
| PList (l : list pyval)
| PDict (d : list (string * pyval)).
Set Elimination Schemes.

Definition dict := list (string * pyval).

Module Dict.

(** [key in d] *)
Fixpoint mem (d : dict) (k : string) : bool :=
  match d with
  | [] => false
  | (k', _) :: d' => String.eqb k' k || mem d' k
  end.

(** [d.get(key)] without a default: [None] of [option] is "no such key". *)
Fixpoint lookup (d : dict) (k : string) : option pyval :=
  match d with
  | [] => None
  | (k', v) :: d' => if String.eqb k' k then Some v else lookup d' k
  end.

(** [d[key] = v]: an existing key keeps its position. *)
Fixpoint set (d : dict) (k : string) (v : pyval) : dict :=
  match d with
  | [] => [(k, v)]
  | (k', v') :: d' =>
      if String.eqb k' k then (k, v) :: d' else (k', v') :: set d' k v
  end.

Definition keys (d : dict) : list string := map fst d.

End Dict.

(** Python operations used by the filter, on dynamically typed values. *)
Module Py.

Definition type_name (v : pyval) : string :=
  match v with
  | PNone => "NoneType" | PStr _ => "str" | PList _ => "list" | PDict _ => "dict"
  end.

(** [for x in v] over what the scripts return (a list, or the keys of a dict). *)
Definition iter (v : pyval) : result (list pyval) :=
  match v with
  | PList l => Ok l
  | PDict d => Ok (map PStr (Dict.keys d))
  | PStr s => Ok (map (fun c => PStr (String c EmptyString)) (list_ascii_of_string s))
  | PNone => Raise (PyTypeError "'NoneType' object is not iterable")
  end.

(** [key in v] for a [str] key. *)
Definition contains (v : pyval) (k : string) : result bool :=
  match v with
  | PDict d => Ok (Dict.mem d k)
  | PStr s => Ok (Str.includes s k)
  | PList l => Ok (existsb (fun x => match x with PStr s => String.eqb s k | _ => false end) l)
  | PNone => Raise (PyTypeError "argument of type 'NoneType' is not iterable")
  end.

(** [v[key]] for a [str] key. *)
Definition getitem (v : pyval) (k : string) : result pyval :=
  match v with
  | PDict d =>
      match Dict.lookup d k with
      | Some x => Ok x
      | None => Raise (PyKeyError k)
      end
  | _ => Raise (PyTypeError ("'" ++ type_name v ++ "' object has no item for a str key"))
  end.

(** [v.get(key, default)] *)
Definition get (v : pyval) (k : string) (default : pyval) : result pyval :=
  match v with
  | PDict d =>
      match Dict.lookup d k with
      | Some x => Ok x
      | None => Ok default
      end
  | _ => Raise (PyAttributeError ("'" ++ type_name v ++ "' object has no attribute 'get'"))
  end.

(** [v.lower()] *)
Definition lower (v : pyval) : result string :=
  match v with
  | PStr s => Ok (Str.lower s)
  | _ => Raise (PyAttributeError ("'" ++ type_name v ++ "' object has no attribute 'lower'"))
  end.

(** [if v:] *)
Definition truthy (v : pyval) : bool :=
  match v with
  | PNone => false
  | PStr s => negb (String.eqb s EmptyString)
  | PList l => match l with [] => false | _ => true end
  | PDict d => match d with [] => false | _ => true end
  end.

(** [v.items()] *)
Definition items (v : pyval) : result dict :=
  match v with
  | PDict d => Ok d
  | _ => Raise (PyAttributeError ("'" ++ type_name v ++ "' object has no attribute 'items'"))
  end.

(** [v[:n]] *)
Definition take (n : nat) (v : pyval) : result pyval :=
  match v with
  | PList l => Ok (PList (firstn n l))
  | PStr s => Ok (PStr (Str.take n s))
  | _ => Raise (PyTypeError ("'" ++ type_name v ++ "' object is not subscriptable"))
  end.

(** [len(v)] *)
Definition len (v : pyval) : result nat :=
  match v with
  | PStr s => Ok (String.length s)
  | PList l => Ok (List.length l)
  | PDict d => Ok (List.length d)
  | PNone => Raise (PyTypeError "object of type 'NoneType' has no len()")
  end.

End Py.

(** ** The page, as the scripts see it *)

Record StyleSheet : Type := {
  href : option string;               (* [sheet.href]: [null] for an inline sheet *)
  cssRules : result (list string)     (* [cssText] of each rule; reading may throw *)
}.

Record Element : Type := {
  tagName : string;
  className : string;
  color : string;                     (* getComputedStyle(el).color *)
  backgroundColor : string;
  borderColor : string;
  textContent : option string
}.

Record Page : Type := {
  computedStyle : list string;        (* computedStyle[i] for i < computedStyle.length *)
  getPropertyValue : string -> string;
  styleSheets : list StyleSheet;      (* document.styleSheets, in document order *)
  querySelectorAll : string -> result (list Element)
}.

(** What a JS value becomes on the Python side of [page.evaluate]. *)
Definition of_nullable (o : option string) : pyval :=
  match o with
  | Some s => PStr s
  | None => PNone
  end.

(** Identifiers a script may call as a function of one argument.  The
    scripts declare none themselves, and the global object of a page has
    [String] but no [str]. *)
Definition js_call_global (f : string) (e : exn) : result string :=
  if String.eqb f "String" then Ok (exn_message e) else Raise (ReferenceError f).

(** The object [document.querySelectorAll] returns. *)
Module NodeList.

Definition t := list Element.

(** Methods of [NodeList.prototype]. *)
Definition methods : list string :=
  ["item"; "entries"; "forEach"; "keys"; "values"].

Definition has_method (name : string) : bool :=
  existsb (String.eqb name) methods.

(** [elems.slice(from, to)]: a call of the property [slice] of [elems]. *)
Definition slice (elems : t) (from to : nat) : result (list Element) :=
  if has_method "slice"
  then Ok (firstn (to - from) (skipn from elems))
  else Raise (JsTypeError "elems.slice is not a function").

End NodeList.

(** ** Script 1: CSS custom properties (lines 17-29) *)

Definition keeps_var (prop : string) : bool :=
  Str.startsWith prop "--" &&
  (Str.includes prop "color" || Str.includes prop "theme" || Str.includes prop "hue").

(** The [for] loop over [computedStyle]; [vars] is the object being filled.
    No kept name is an array index (each starts with "--"), so the keys of
    [vars] enumerate in insertion order. *)
Fixpoint css_vars_loop (page : Page) (props : list string) (vars : dict) : dict :=
  match props with
  | [] => vars
  | prop :: rest =>
      if keeps_var prop
      then css_vars_loop page rest
             (Dict.set vars prop (PStr (Str.trim (getPropertyValue page prop))))
      else css_vars_loop page rest vars
  end.

Definition css_vars_script (page : Page) : result pyval :=
  Ok (PDict (css_vars_loop page (computedStyle page) [])).

(** ** Script 2: stylesheets and their rules (lines 34-56) *)

Fixpoint stylesheets_loop (todo : list StyleSheet) (sheets : list pyval)
  : result (list pyval) :=
  match todo with
  | [] => Ok sheets
  | sheet :: rest =>
      match cssRules sheet with
      | Ok rules =>
          stylesheets_loop rest
            (sheets ++ [PDict [("href", of_nullable (href sheet));
                               ("rules", PList (map PStr rules))]])%list
      | Raise e =>
          (* catch (e): the object literal is built before the push *)
          match js_call_global "str" e with
          | Ok msg =>
              stylesheets_loop rest
                (sheets ++ [PDict [("href", of_nullable (href sheet));
                                   ("error", PStr msg)]])%list
          | Raise e' => Raise e'
          end
      end
  end.

Definition stylesheets_script (page : Page) : result pyval :=
  match stylesheets_loop (styleSheets page) [] with
  | Ok sheets => Ok (PList sheets)
  | Raise e => Raise e
  end.

(** ** Script 3: colours of selected elements (lines 74-100) *)

(** The double quote, for the attribute selectors. *)
Definition dq : string := String "034"%char EmptyString.

Definition selectors : list string :=
  ["button"; "a"; ".btn";
   "[class*=" ++ dq ++ "color" ++ dq ++ "]";
   "[class*=" ++ dq ++ "theme" ++ dq ++ "]";
   "body"; "html"].

(** The object pushed for one element: [text] is
    [el.textContent?.slice(0, 50) || ''] (an empty slice is falsy too). *)
Definition element_entry (selector : string) (el : Element) : pyval :=
  PDict [("selector", PStr selector);
         ("tagName", PStr (tagName el));
         ("className", PStr (className el));
         ("color", PStr (color el));
         ("backgroundColor", PStr (backgroundColor el));
         ("borderColor", PStr (borderColor el));
         ("text", PStr (match textContent el with
                        | Some t => Str.take 50 t
                        | None => EmptyString
                        end))].

(** Body of the [try] for one selector: the entries it pushes. *)
Definition sample_selector (page : Page) (selector : string) : result (list pyval) :=
  (do elems <- querySelectorAll page selector;
   do firsts <- NodeList.slice elems 0 5;
   Ok (map (element_entry selector) firsts))%res.

(** The [for] loop over the selectors.  [elements] is the array being
    filled, [queried] the selectors handed to [querySelectorAll] so far. *)
Fixpoint selectors_loop (page : Page) (todo : list string)
  (elements : list pyval) (queried : list string) : list pyval * list string :=
  match todo with
  | [] => (elements, queried)
  | selector :: rest =>
      match sample_selector page selector with
      | Ok entries =>
          selectors_loop page rest (elements ++ entries) (queried ++ [selector])
      | Raise _ =>
          (* Ignore selector errors *)
          selectors_loop page rest elements (queried ++ [selector])
      end
  end%list.

Definition element_colors_run (page : Page) : list pyval * list string :=
  selectors_loop page selectors [] [].

Definition element_colors_script (page : Page) : result pyval :=
  Ok (PList (fst (element_colors_run page))).

(** ** extract_colors_from_page (lines 10-104) *)

(** [page.evaluate(script)]: an exception thrown by the script is raised
    in Python as a Playwright error carrying its text. *)
Definition evaluate (script_result : result pyval) : result pyval :=
  match script_result with
  | Ok v => Ok v
  | Raise e => Raise (PlaywrightError (exn_message e))
  end.

Definition color_keywords : list string :=
  ["color"; "background"; "border"; "rgb"; "hsl"; "hsv"; "#"; "var(--"].

(** [any(keyword in low for keyword in color_keywords)] *)
Definition any_keyword_in (low : string) : bool :=
  existsb (fun keyword => Str.includes low keyword) color_keywords.

(** [for rule in sheet['rules']] *)
Fixpoint rules_loop (sheet : pyval) (rules : list pyval) (color_rules : list pyval)
  : result (list pyval) :=
  match rules with
  | [] => Ok color_rules
  | rule :: rest =>
      (do low <- Py.lower rule;
       if any_keyword_in low
       then
         do source <- Py.get sheet "href" (PStr "inline");
         rules_loop sheet rest
           (color_rules ++ [PDict [("source", source); ("rule", rule)]])%list
       else rules_loop sheet rest color_rules)%res
  end.

(** [for sheet in stylesheets] *)
Fixpoint sheets_loop (sheets : list pyval) (color_rules : list pyval)
  : result (list pyval) :=
  match sheets with
  | [] => Ok color_rules
  | sheet :: rest =>
      (do has_rules <- Py.contains sheet "rules";
       if has_rules
       then
         do rules_v <- Py.getitem sheet "rules";
         do rules <- Py.iter rules_v;
         do color_rules' <- rules_loop sheet rules color_rules;
         sheets_loop rest color_rules'
       else sheets_loop rest color_rules)%res
  end.

Definition extract_colors_from_page (page : Page) : result pyval :=
  (do css_vars <- evaluate (css_vars_script page);
   let colors_info := Dict.set [] "css_variables" css_vars in
   do stylesheets <- evaluate (stylesheets_script page);
   do sheets <- Py.iter stylesheets;
   do color_rules <- sheets_loop sheets [];
   let colors_info := Dict.set colors_info "color_rules" (PList color_rules) in
   do element_colors <- evaluate (element_colors_script page);
   let colors_info := Dict.set colors_info "element_colors" element_colors in
   Ok (PDict colors_info))%res.

(** ** json.dump(obj, f, indent=2) and json.load

    The encoder is Python's with [indent=2] and the default
    [ensure_ascii=True]; the decoder is Python's scanner restricted to the
    values of [pyval] (it rejects numbers, [true] and [false], which this
    program never writes). *)

Module Json.

Definition backslash : ascii := "092"%char.
Definition quote : ascii := "034"%char.
Definition newline : ascii := "010"%char.

Definition hex_digit (n : nat) : ascii :=
  nth n (list_ascii_of_string "0123456789abcdef") "0"%char.

(** One character of a string, as [py_encode_basestring_ascii] writes it:
    printable ASCII is copied, the rest is escaped. *)
Definition escape_char (c : ascii) : string :=
  let n := nat_of_ascii c in
  (if n =? 34 then String backslash (String quote EmptyString)
   else if n =? 92 then String backslash (String backslash EmptyString)
   else if n =? 10 then String backslash "n"
   else if n =? 13 then String backslash "r"
   else if n =? 9 then String backslash "t"
   else if n =? 8 then String backslash "b"
   else if n =? 12 then String backslash "f"
   else if (32 <=? n) && (n <=? 126) then String c EmptyString
   else String backslash
          (String "u" (String "0" (String "0"
             (String (hex_digit (n / 16))
                (String (hex_digit (n mod 16)) EmptyString))))))%nat.

Fixpoint escape (s : string) : string :=
  match s with
  | EmptyString => EmptyString
  | String c s' => escape_char c ++ escape s'
  end.

Definition encode_string (s : string) : string :=
  String quote (escape s ++ String quote EmptyString).

Fixpoint spaces (n : nat) : string :=
  match n with
  | O => EmptyString
  | S n' => String " " (spaces n')
  end.

(** Line break followed by the indentation of nesting depth [level]. *)
Definition nl (level : nat) : string := String newline (spaces (2 * level)).

Fixpoint dumps_at (level : nat) (v : pyval) : string :=
  match v with
  | PNone => "null"
  | PStr s => encode_string s
  | PList [] => "[]"
  | PList (x :: xs) =>
      "[" ++ nl (S level) ++ dumps_at (S level) x ++
      (fix items (l : list pyval) : string :=
         match l with
         | [] => nl level ++ "]"
         | y :: ys => "," ++ nl (S level) ++ dumps_at (S level) y ++ items ys
         end) xs
  | PDict [] => "{}"
  | PDict ((k, x) :: kxs) =>
      "{" ++ nl (S level) ++ encode_string k ++ ": " ++ dumps_at (S level) x ++
      (fix members (l : list (string * pyval)) : string :=
         match l with
         | [] => nl level ++ "}"
         | (k', y) :: ys =>
             "," ++ nl (S level) ++ encode_string k' ++ ": " ++
             dumps_at (S level) y ++ members ys
         end) kxs
  end.

Definition dumps (v : pyval) : string := dumps_at 0 v.

(** *** Decoder *)

Definition is_ws (c : ascii) : bool :=
  let n := nat_of_ascii c in
  ((n =? 32) || (n =? 9) || (n =? 10) || (n =? 13))%nat.

Fixpoint skip_ws (s : string) : string :=
  match s with
  | String c s' => if is_ws c then skip_ws s' else s
  | EmptyString => EmptyString
  end.

Definition hex_value (c : ascii) : option nat :=
  let n := nat_of_ascii c in
  (if (48 <=? n) && (n <=? 57) then Some (n - 48)
   else if (97 <=? n) && (n <=? 102) then Some (n - 87)
   else if (65 <=? n) && (n <=? 70) then Some (n - 55)
   else None)%nat.

(** The character a one-letter escape stands for. *)
Definition unescape (c : ascii) : option ascii :=
  let n := nat_of_ascii c in
  (if n =? 34 then Some quote
   else if n =? 92 then Some backslash
   else if n =? 47 then Some "/"%char
   else if n =? 98 then Some "008"%char
   else if n =? 102 then Some "012"%char
   else if n =? 110 then Some newline
   else if n =? 114 then Some "013"%char
   else if n =? 116 then Some "009"%char
   else None)%nat.

Definition cons_char (c : ascii) (r : option (string * string))
  : option (string * string) :=
  match r with
  | Some (s, rest) => Some (String c s, rest)
  | None => None
  end.

(** [scanstring], started after the opening quote: the decoded string
    and the text after the closing quote.  A code point of 256 or more
    is outside the model and rejected. *)
Fixpoint scanstring (s : string) : option (string * string) :=
  match s with
  | EmptyString => None
  | String c r =>
      if Ascii.eqb c quote then Some (EmptyString, r)
      else if Ascii.eqb c backslash then
        match r with
        | EmptyString => None
        | String e r' =>
            if Ascii.eqb e "u" then
              match r' with
              | String h1 (String h2 (String h3 (String h4 r''))) =>
                  match hex_value h1, hex_value h2, hex_value h3, hex_value h4 with
                  | Some a, Some b, Some c', Some d =>
                      let n := (((a * 16 + b) * 16 + c') * 16 + d)%nat in
                      if (n <? 256)%nat
                      then cons_char (ascii_of_nat n) (scanstring r'')
                      else None
                  | _, _, _, _ => None
                  end
              | _ => None
              end
            else
              match unescape e with
              | Some ch => cons_char ch (scanstring r')
              | None => None
              end
        end
      else if (nat_of_ascii c <? 32)%nat then None
      else cons_char c (scanstring r)
  end.

Definition parser (A : Type) : Type := string -> option (A * string).

(** The text after the first character, when that character is [c]. *)
Definition expect (c : ascii) (s : string) : option string :=
  match s with
  | String c' r => if Ascii.eqb c' c then Some r else None
  | EmptyString => None
  end.

(** Elements of an array, started at its first value; [n] bounds the
    number of elements read. *)
Fixpoint parse_items (value : parser pyval) (n : nat) (s : string)
  (acc : list pyval) : option (list pyval * string) :=
  match n with
  | O => None
  | S n' =>
      match value s with
      | None => None
      | Some (v, r) =>
          let r1 := skip_ws r in
          match expect "]" r1 with
          | Some r' => Some (acc ++ [v], r')
          | None =>
              match expect "," r1 with
              | Some r' => parse_items value n' (skip_ws r') (acc ++ [v])
              | None => None
              end
          end
      end
  end%list.

(** Members of an object, started at the opening quote of its first key. *)
Fixpoint parse_members (value : parser pyval) (n : nat) (s : string)
  (acc : list (string * pyval)) : option (list (string * pyval) * string) :=
  match n with
  | O => None
  | S n' =>
      match expect quote s with
      | None => None
      | Some s1 =>
          match scanstring s1 with
          | None => None
          | Some (k, r) =>
              match expect ":" (skip_ws r) with
              | None => None
              | Some r1 =>
                  match value (skip_ws r1) with
                  | None => None
                  | Some (v, r2) =>
                      let r3 := skip_ws r2 in
                      match expect "}" r3 with
                      | Some r' => Some (acc ++ [(k, v)], r')
                      | None =>
                          match expect "," r3 with
                          | Some r' =>
                              parse_members value n' (skip_ws r') (acc ++ [(k, v)])
                          | None => None
                          end
                      end
                  end
              end
          end
      end
  end%list.

(** [dict(pairs)]: a repeated key keeps its first position and its last value. *)
Definition dict_of_pairs (pairs : list (string * pyval)) : dict :=
  fold_left (fun d kv => Dict.set d (fst kv) (snd kv)) pairs [].

(** The text after [p], when the text starts with [p]. *)
Fixpoint strip_prefix (p s : string) : option string :=
  match p, s with
  | EmptyString, _ => Some s
  | String a p', String b s' => if Ascii.eqb a b then strip_prefix p' s' else None
  | String _ _, EmptyString => None
  end.

(** [scan_once]: [fuel] bounds the nesting depth and the length of each
    array and object. *)
Fixpoint parse_value (fuel : nat) (s : string) : option (pyval * string) :=
  match fuel with
  | O => None
  | S fuel' =>
      match expect quote s with
      | Some r =>
          match scanstring r with
          | Some (str, r') => Some (PStr str, r')
          | None => None
          end
      | None =>
      match expect "{" s with
      | Some r =>
          let r1 := skip_ws r in
          match expect "}" r1 with
          | Some r' => Some (PDict [], r')
          | None =>
              match parse_members (parse_value fuel') fuel' r1 [] with
              | Some (pairs, r') => Some (PDict (dict_of_pairs pairs), r')
              | None => None
              end
          end
      | None =>
      match expect "[" s with
      | Some r =>
          let r1 := skip_ws r in
          match expect "]" r1 with
          | Some r' => Some (PList [], r')
          | None =>
              match parse_items (parse_value fuel') fuel' r1 [] with
              | Some (l, r') => Some (PList l, r')
              | None => None
              end
          end
      | None =>
      match strip_prefix "null" s with
      | Some r => Some (PNone, r)
      | None => None
      end end end end
  end.

(** [json.loads]: one value, white space around it, nothing else.  No
    value nests deeper, nor holds more items, than the text has
    characters. *)
Definition loads (s : string) : option pyval :=
  match parse_value (String.length s) (skip_ws s) with
  | Some (v, r) =>
      match skip_ws r with
      | EmptyString => Some v
      | _ => None
      end
  | None => None
  end.

End Json.

(** ** The run: what [main] does to the outside world *)

Inductive event : Type :=
| Launch (headless : bool)                        (* p.chromium.launch *)
| NewPage                                         (* browser.new_page *)
| Print (line : string)
| Goto (url wait_until : string)                  (* page.goto was called *)
| FileWritten (path content : string)             (* open(path, 'w') and the dump *)
| Screenshot (path : string) (full_page saved : bool)  (* page.screenshot was called *)
| BrowserClose                                    (* browser.close *)
| PlaywrightStop.                                 (* exit of [with sync_playwright()] *)

(** Outcome of each call that leaves the program: [None] is success,
    [Some e] is the exception it raises.  Every exception of [exn] is an
    [Exception] in Python.  [print], [f.write] on an opened file and
    [browser.close] are taken to succeed. *)
Record World : Type := {
  launch_raises : option exn;
  new_page_raises : option exn;
  goto_raises : option exn;
  document : Page;                     (* the page once navigation is done *)
  open_raises : option exn;            (* open('animate_ui_colors.json', 'w') *)
  screenshot_raises : option exn;      (* the full-page screenshot *)
  error_screenshot_raises : option exn (* the screenshot of the handler *)
}.

(** A computation that logs events and returns or raises. *)
Definition action (A : Type) : Type := list event * result A.

Module Act.

Definition ret {A} (a : A) : action A := ([], Ok a).

Definition bind {A B} (m : action A) (f : A -> action B) : action B :=
  match m with
  | (t, Ok a) => let (t', r) := f a in (t ++ t', r)%list
  | (t, Raise e) => (t, Raise e)
  end.

Definition lift {A} (r : result A) : action A := ([], r).

(** An outside call: it is logged, then returns or raises. *)
Definition call (ev : event) (raises : option exn) : action unit :=
  match raises with
  | None => ([ev], Ok tt)
  | Some e => ([ev], Raise e)
  end.

(** [try: body / except Exception as e: handler e] *)
Definition try_except {A} (body : action A) (handler : exn -> action A) : action A :=
  match body with
  | (t, Ok a) => (t, Ok a)
  | (t, Raise e) => let (t', r) := handler e in (t ++ t', r)%list
  end.

(** [try: body / finally: cleanup] *)
Definition finally {A} (body : action A) (cleanup : action unit) : action A :=
  let (t, r) := body in
  match cleanup with
  | (t', Ok _) => (t ++ t', r)%list
  | (t', Raise e) => (t ++ t', Raise e)%list
  end.

End Act.

Declare Scope act_scope.
Delimit Scope act_scope with act.
Notation "x <- m ;; k" := (Act.bind m (fun x => k))
  (at level 61, m at next level, right associativity) : act_scope.
Notation "m ;; k" := (Act.bind m (fun _ => k))
  (at level 61, right associativity) : act_scope.

Definition print (line : string) : action unit := ([Print line], Ok tt).

(** [str(n)] for a natural number. *)
Definition str_of_nat (n : nat) : string := NilZero.string_of_uint (Nat.to_uint n).

(** [str(v)] as an f-string shows a value.  Every value printed by [main]
    is a [str]; the [repr] of a container is not modelled. *)
Definition str_of (v : pyval) : string :=
  match v with
  | PStr s => s
  | PNone => "None"
  | PList _ => "[...]"
  | PDict _ => "{...}"
  end.

Definition lf : string := String Json.newline EmptyString.

(** [for var, value in colors_info['css_variables'].items(): print(...)] *)
Fixpoint print_variables (items : dict) : action unit :=
  match items with
  | [] => Act.ret tt
  | (var, value) :: rest =>
      (print ("  " ++ var ++ ": " ++ str_of value) ;; print_variables rest)%act
  end.

(** [for rule in rules: print(f"  {rule['rule']}")] *)
Fixpoint print_rules (rules : list pyval) : action unit :=
  match rules with
  | [] => Act.ret tt
  | rule :: rest =>
      (text <- Act.lift (Py.getitem rule "rule") ;;
       print ("  " ++ str_of text) ;;
       print_rules rest)%act
  end.

(** Lines 122-140: the summary printed after the dump. *)
Definition print_summary (colors_info : pyval) : action unit :=
  (print (lf ++ "Extraction complete!") ;;
   css_variables <- Act.lift (Py.getitem colors_info "css_variables") ;;
   n_vars <- Act.lift (Py.len css_variables) ;;
   print ("Found " ++ str_of_nat n_vars ++ " CSS variables") ;;
   color_rules <- Act.lift (Py.getitem colors_info "color_rules") ;;
   n_rules <- Act.lift (Py.len color_rules) ;;
   print ("Found " ++ str_of_nat n_rules ++ " color-related CSS rules") ;;
   element_colors <- Act.lift (Py.getitem colors_info "element_colors") ;;
   n_elems <- Act.lift (Py.len element_colors) ;;
   print ("Found " ++ str_of_nat n_elems ++ " element color samples") ;;
   (if Py.truthy css_variables
    then
      print (lf ++ "CSS Variables:") ;;
      items <- Act.lift (Py.items css_variables) ;;
      print_variables items
    else Act.ret tt) ;;
   print (lf ++ "Key Color Rules:") ;;
   first_rules <- Act.lift (Py.take 10 color_rules) ;;
   rules <- Act.lift (Py.iter first_rules) ;;
   print_rules rules ;;
   if (10 <? n_rules)%nat
   then print ("  ... and " ++ str_of_nat (n_rules - 10) ++ " more rules")
   else Act.ret tt)%act.

Definition json_path : string := "animate_ui_colors.json".
Definition screenshot_path : string := "animate_ui_screenshot.png".
Definition error_path : string := "animate_ui_error.png".

(** Lines 112-144: the body of the [try]. *)
Definition main_try (w : World) : action unit :=
  (print "Navigating to animate-ui.com..." ;;
   Act.call (Goto "https://animate-ui.com/" "networkidle") (goto_raises w) ;;
   print "Extracting color information..." ;;
   colors_info <- Act.lift (extract_colors_from_page (document w)) ;;
   match open_raises w with
   | None => ([FileWritten json_path (Json.dumps colors_info)], Ok tt)
   | Some e => ([], Raise e)
   end ;;
   print_summary colors_info ;;
   Act.call (Screenshot screenshot_path true
               (match screenshot_raises w with None => true | Some _ => false end))
            (screenshot_raises w) ;;
   print (lf ++ "Screenshot saved as 'animate_ui_screenshot.png'"))%act.

(** Lines 146-153: the handler; its inner [except:] swallows everything. *)
Definition main_except (w : World) (e : exn) : action unit :=
  (print ("Error: " ++ exn_message e) ;;
   Act.try_except
     (Act.call (Screenshot error_path false
                  (match error_screenshot_raises w with None => true | Some _ => false end))
               (error_screenshot_raises w) ;;
      print "Error screenshot saved as 'animate_ui_error.png'")
     (fun _ => Act.ret tt))%act.

(** Lines 111-153: the [try] with its handler. *)
Definition main_guarded (w : World) : action unit :=
  Act.try_except (main_try w) (main_except w).

(** Lines 106-156.  Leaving the [with] block stops Playwright, on every
    path, and lets an exception through. *)
Definition main (w : World) : action unit :=
  Act.finally
    (Act.call (Launch true) (launch_raises w) ;;
     Act.call NewPage (new_page_raises w) ;;
     Act.finally (main_guarded w) ([BrowserClose], Ok tt))%act
    ([PlaywrightStop], Ok tt).

(** *** Reading a trace *)

Definition is_close (ev : event) : bool :=
  match ev with BrowserClose => true | _ => false end.

Definition is_goto (ev : event) : bool :=
  match ev with Goto _ _ => true | _ => false end.

(** Files a run leaves behind: the dump and the screenshots that were saved. *)
Fixpoint files_of (t : list event) : list string :=
  match t with
  | [] => []
  | FileWritten path _ :: t' => path :: files_of t'
  | Screenshot path _ true :: t' => path :: files_of t'
  | _ :: t' => files_of t'
  end.

(** The handler's screenshot was attempted (saved or not). *)
Definition error_shot_attempted (t : list event) : Prop :=
  exists saved, In (Screenshot error_path false saved) t.

(** The events with which every run that reaches the [try] starts, and
    those up to the dump. *)
Definition ev_goto : event := Goto "https://animate-ui.com/" "networkidle".

Definition until_goto : list event :=
  [Print "Navigating to animate-ui.com..."; ev_goto].

Definition until_extract : list event :=
  (until_goto ++ [Print "Extracting color information..."])%list.

Definition until_dump (colors_info : pyval) : list event :=
  (until_extract ++ [FileWritten json_path (Json.dumps colors_info)])%list.

Definition trace (w : World) : list event := fst (main w).
Definition outcome (w : World) : result unit := snd (main w).

(** ** Vocabulary of the properties *)

(** The field [k] of an entry (a [dict] produced by a script or the filter). *)
Definition field (entry : pyval) (k : string) : option pyval :=
  match entry with
  | PDict d => Dict.lookup d k
  | _ => None
  end.

(** A stylesheet whose rule list can be read. *)
Definition readable (sheet : StyleSheet) : bool :=
  match cssRules sheet with
  | Ok _ => true
  | Raise _ => false
  end.

(** The rules read from a sheet (none when it cannot be read). *)
Definition rules_of (sheet : StyleSheet) : list string :=
  match cssRules sheet with
  | Ok rules => rules
  | Raise _ => []
  end.

(** Every rule of the document, sheet by sheet, in document order. *)
Definition encountered (page : Page) : list string :=
  flat_map rules_of (styleSheets page).

(** The lowercase text of a rule contains one of the keywords. *)
Definition mentions_color (rule : string) : bool :=
  any_keyword_in (Str.lower rule).

(** What the script returns for a readable sheet. *)
Definition sheet_entry (sheet : StyleSheet) : pyval :=
  PDict [("href", of_nullable (href sheet));
         ("rules", PList (map PStr (rules_of sheet)))].

(** What the filter appends for a kept rule of [sheet]. *)
Definition rule_entry (sheet : StyleSheet) (rule : string) : pyval :=
  PDict [("source", of_nullable (href sheet)); ("rule", PStr rule)].

(** The entries the filter appends for [sheet]. *)
Definition kept_of (sheet : StyleSheet) : list pyval :=
  map (rule_entry sheet) (filter mentions_color (rules_of sheet)).



(** Every [dict] inside a value has distinct keys, as Python's have. *)
Fixpoint distinct_keys (v : pyval) : Prop :=
  match v with
  | PNone | PStr _ => True
  | PList l =>
      (fix all (l : list pyval) : Prop :=
         match l with
         | [] => True
         | x :: xs => distinct_keys x /\ all xs
         end) l
  | PDict d =>
      NoDup (map fst d) /\
      (fix all (l : list (string * pyval)) : Prop :=
         match l with
         | [] => True
         | (_, x) :: xs => distinct_keys x /\ all xs
         end) d
  end.

(** An action that only prints. *)
Definition prints_only {A} (m : action A) : Prop :=
  exists lines, fst m = map Print lines.

(** An action that returns. *)
Definition returns {A} (m : action A) : Prop := exists a, snd m = Ok a.

(** The dumps written by the run, as (path, content). *)
Fixpoint written (t : list event) : list (string * string) :=
  match t with
  | [] => []
  | FileWritten path content :: t' => (path, content) :: written t'
  | _ :: t' => written t'
  end.

(** *** The text of a dump

    The tails of an array and of an object in [Json.dumps_at], the
    characters a value can start with, and the fuel a value needs to be
    read back. *)

(** After the first element of an array: the other elements and the
    closing bracket. *)
Definition items_text (level : nat) : list pyval -> string :=
  fix items (l : list pyval) : string :=
    match l with
    | [] => Json.nl level ++ "]"
    | y :: ys => "," ++ Json.nl (S level) ++ Json.dumps_at (S level) y ++ items ys
    end.

(** After the first member of an object: the other members and the
    closing brace. *)
Definition members_text (level : nat) : list (string * pyval) -> string :=
  fix members (l : list (string * pyval)) : string :=
    match l with
    | [] => Json.nl level ++ "}"
    | (k, y) :: ys =>
        "," ++ Json.nl (S level) ++ Json.encode_string k ++ ": " ++
        Json.dumps_at (S level) y ++ members ys
    end.

(** Number of nodes of a value: enough fuel for [Json.parse_value]. *)
Fixpoint weight (v : pyval) : nat :=
  match v with
  | PNone | PStr _ => 1
  | PList l =>
      S ((fix sum (l : list pyval) : nat :=
            match l with
            | [] => 0
            | x :: xs => weight x + sum xs
            end) l)
  | PDict d =>
      S ((fix sum (l : list (string * pyval)) : nat :=
            match l with
            | [] => 0
            | (_, x) :: xs => weight x + sum xs
            end) d)
  end.

(** The first character of a dumped value. *)
Definition is_value_start (c : ascii) : bool :=
  Ascii.eqb c Json.quote || Ascii.eqb c "n" || Ascii.eqb c "[" || Ascii.eqb c "{".

Definition starts_value (s : string) : bool :=
  match s with
  | String c _ => is_value_start c
  | EmptyString => false
  end.

Fixpoint total_weight (l : list pyval) : nat :=
  match l with
  | [] => 0
  | x :: xs => weight x + total_weight xs
  end.

(** The dump of [v], at any depth and followed by any text, is read back
    as [v] with that text left over. *)
Definition parses_back (v : pyval) : Prop :=
  distinct_keys v ->
  forall level fuel rest,
    weight v <= fuel ->
    Json.parse_value fuel (Json.dumps_at level v ++ rest) = Some (v, rest).

(** ** Sample pages and runs *)

Module Sample.

Definition button : Element :=
  {| tagName := "BUTTON"; className := "btn primary";
     color := "rgb(255, 255, 255)"; backgroundColor := "rgb(0, 0, 0)";
     borderColor := "rgb(0, 0, 0)"; textContent := Some "Get started" |}.

(** A linked sheet, an inline [<style>] and a cross-origin sheet. *)
Definition linked : StyleSheet :=
  {| href := Some "https://animate-ui.com/app.css";
     cssRules := Ok ["a { color: red; }"; "p { margin: 0px; }";
                     "div { BACKGROUND: blue; }"] |}.

Definition inline : StyleSheet :=
  {| href := None;
     cssRules := Ok [".x { width: 1px; }"; ".y { border: 0px; }"] |}.

Definition foreign : StyleSheet :=
  {| href := Some "https://fonts.example/css";
     cssRules := Raise (DOMException "SecurityError"
                          "Failed to read the 'cssRules' property") |}.

(** A page with the given sheets; [button] matches six elements, [body]
    and [html] one each, and querying a selector of [invalid] throws. *)
Definition page (sheets : list StyleSheet) (invalid : list string) : Page :=
  {| computedStyle := ["color"; "--primary-color"; "--radius"; "--theme-x";
                       "--Hue"; "--hue-1"];
     getPropertyValue := fun prop =>
       if String.eqb prop "--primary-color" then " #0af " else " 4px";
     styleSheets := sheets;
     querySelectorAll := fun selector =>
       if existsb (String.eqb selector) invalid
       then Raise (DOMException "SyntaxError" "not a valid selector")
       else if String.eqb selector "button"
       then Ok [button; button; button; button; button; button]
       else if String.eqb selector "body" || String.eqb selector "html"
       then Ok [button]
       else Ok [] |}.

(** Six buttons and no stylesheet; an inline sheet only; a linked sheet
    followed by a cross-origin one; a linked and an inline sheet. *)
Definition buttons_page : Page := page [] [].
Definition inline_page : Page := page [inline] [].
Definition cross_origin_page : Page := page [linked; foreign] [].
Definition plain_page : Page := page [linked; inline] [].

(** The page on which querying [.btn] throws. *)
Definition bad_selector_page : Page := page [] [".btn"].

(** A run in which every outside call succeeds, on the given page. *)
Definition world (doc : Page) : World :=
  {| launch_raises := None; new_page_raises := None; goto_raises := None;
     document := doc; open_raises := None; screenshot_raises := None;
     error_screenshot_raises := None |}.

(** What the extraction returns on a page where it succeeds. *)
Definition extracted (doc : Page) : pyval :=
  match extract_colors_from_page doc with
  | Ok info => info
  | Raise _ => PNone
  end.

Definition timeout : exn := PlaywrightError "Timeout 30000ms exceeded.".

(** The host cannot be reached. *)
Definition unreachable : World :=
  {| launch_raises := None; new_page_raises := None;
     goto_raises := Some (PlaywrightError "net::ERR_NAME_NOT_RESOLVED");
     document := page [] []; open_raises := None; screenshot_raises := None;
     error_screenshot_raises := None |}.

(** The browser starts, but no page can be opened. *)
Definition no_page : World :=
  {| launch_raises := None;
     new_page_raises := Some (PlaywrightError "Target closed");
     goto_raises := None; document := page [] []; open_raises := None;
     screenshot_raises := None; error_screenshot_raises := None |}.

(** Everything works until the full-page screenshot. *)
Definition late_failure : World :=
  {| launch_raises := None; new_page_raises := None; goto_raises := None;
     document := plain_page; open_raises := None;
     screenshot_raises := Some timeout;
     error_screenshot_raises := None |}.

End Sample.

(** ** Vocabulary of the further properties *)

(** What the stylesheet script is written to return for a sheet: its rules,
    or the text of the error that reading them raised. *)
Definition intended_entry (sheet : StyleSheet) : pyval :=
  match cssRules sheet with
  | Ok rules =>
      PDict [("href", of_nullable (href sheet)); ("rules", PList (map PStr rules))]
  | Raise e =>
      PDict [("href", of_nullable (href sheet)); ("error", PStr (exn_message e))]
  end.

(** The kept rules of a sheet entry that has no [href] key. *)
Definition inline_entries (rules : list string) : list pyval :=
  map (fun rule => PDict [("source", PStr "inline"); ("rule", PStr rule)])
      (filter mentions_color rules).

(** Every step of the run succeeds: the browser starts, the page opens,
    navigation succeeds, every stylesheet can be read, the JSON file opens
    and the full-page screenshot is taken. *)
Definition all_succeed (w : World) : bool :=
  match launch_raises w, new_page_raises w, goto_raises w,
        open_raises w, screenshot_raises w with
  | None, None, None, None, None => forallb readable (styleSheets (document w))
  | _, _, _, _, _ => false
  end.

(** The run gets its page: the [try] block is entered. *)
Definition has_page (w : World) : bool :=
  match launch_raises w, new_page_raises w with
  | None, None => true
  | _, _ => false
  end.

(** The two messages that report a saved screenshot. *)
Definition msg_error_saved : string :=
  "Error screenshot saved as 'animate_ui_error.png'".

Definition msg_saved : string :=
  lf ++ "Screenshot saved as 'animate_ui_screenshot.png'".

(** The lines of the summary: the header, a count, a variable, a rule,
    and the number of rules left out. *)
Definition line_complete : string := lf ++ "Extraction complete!".
Definition line_variables : string := lf ++ "CSS Variables:".
Definition line_rules : string := lf ++ "Key Color Rules:".

Definition line_found (n : nat) (what : string) : string :=
  "Found " ++ str_of_nat n ++ what.

Definition var_line (kv : string * pyval) : string :=
  "  " ++ fst kv ++ ": " ++ str_of (snd kv).

Definition rule_line (rule : string) : string := "  " ++ rule.

Definition line_more (n : nat) : string :=
  "  ... and " ++ str_of_nat n ++ " more rules".

(** The summary as a whole: the header, the three counts, the variables
    when there are any, the first ten rules, and the number of rules left
    out when there are more. *)
Definition summary_lines (vars : dict) (rules : list string) (n_elems : nat)
  : list string :=
  ([line_complete;
    line_found (length vars) " CSS variables";
    line_found (length rules) " color-related CSS rules";
    line_found n_elems " element color samples"] ++
   match vars with
   | [] => []
   | _ :: _ => line_variables :: map var_line vars
   end ++
   [line_rules] ++
   map rule_line (firstn 10 rules) ++
   (if (10 <? length rules)%nat then [line_more (length rules - 10)] else []))%list.

(** A line of the summary is one of its three headers, or starts with a
    space or with "Found". *)
Definition summary_start (line : string) : bool :=
  String.eqb line line_complete || String.eqb line line_variables ||
  String.eqb line line_rules ||
  match line with
  | String c _ => Ascii.eqb c " " || Ascii.eqb c "F"
  | EmptyString => false
  end.

(** The custom properties that the extraction keeps, and the texts of the
    rules it keeps. *)
Definition kept_vars (page : Page) : dict :=
  css_vars_loop page (computedStyle page) [].

Definition kept_rules (page : Page) : list string :=
  filter mentions_color (encountered page).

(** The text of a kept rule, as the summary shows it. *)
Definition rule_text (entry : pyval) : string :=
  match field entry "rule" with
  | Some text => str_of text
  | None => EmptyString
  end.

(** An action prints the given lines and returns [a]. *)
Definition runs {A} (m : action A) (lines : list string) (a : A) : Prop :=
  m = (map Print lines, Ok a).

(** The result of the extraction on a page whose sheets can all be read. *)
Definition extraction_result (page : Page) : pyval :=
  PDict [("css_variables", PDict (kept_vars page));
         ("color_rules", PList (flat_map kept_of (styleSheets page)));
         ("element_colors", PList [])].

(** What the handler logs: the error, the screenshot, and the message
    when the screenshot was saved. *)
Definition handler_events (w : World) (e : exn) : list event :=
  match error_screenshot_raises w with
  | None =>
      [Print ("Error: " ++ exn_message e); Screenshot error_path false true;
       Print msg_error_saved]
  | Some _ =>
      [Print ("Error: " ++ exn_message e); Screenshot error_path false false]
  end.

(** The events of the guarded block, path by path: a failure of
    navigation, of the extraction or of opening the file leads to the
    handler; after the dump and the summary, so does a failure of the
    full-page screenshot. *)
Definition guarded_events (w : World) : list event :=
  match goto_raises w with
  | Some e => until_goto ++ handler_events w e
  | None =>
      if forallb readable (styleSheets (document w))
      then
        match open_raises w with
        | Some e => until_extract ++ handler_events w e
        | None =>
            until_dump (extraction_result (document w)) ++
            map Print (summary_lines (kept_vars (document w))
                         (kept_rules (document w)) 0) ++
            match screenshot_raises w with
            | Some e => Screenshot screenshot_path true false :: handler_events w e
            | None => [Screenshot screenshot_path true true; Print msg_saved]
            end
        end
      else
        until_extract ++
        handler_events w (PlaywrightError "ReferenceError: str is not defined")
  end%list.

(** The events and the outcome of a run, path by path. *)
Definition run_events (w : World) : list event :=
  match launch_raises w, new_page_raises w with
  | Some _, _ => [Launch true; PlaywrightStop]
  | None, Some _ => [Launch true; NewPage; PlaywrightStop]
  | None, None =>
      [Launch true; NewPage] ++ guarded_events w ++ [BrowserClose; PlaywrightStop]
  end%list.

Definition run_outcome (w : World) : result unit :=
  match launch_raises w, new_page_raises w with
  | Some e, _ => Raise e
  | None, Some e => Raise e
  | None, None => Ok tt
  end.

(** ** The launcher script (lines 161-200)

    The second script of the file swaps the settings of a command-line
    tool, runs the tool and puts the settings back.  The machine is its
    regular files, by path, and its environment.  Directories are not
    stored: a directory exists when it holds a file, and is made when it is
    missing, so [os.makedirs(config_dir, exist_ok=True)] adds nothing to
    the files; it fails when a regular file stands where a directory is
    needed.  Permissions are outside the model.  [shutil.copy2] copies the
    content (no metadata); the command run by [subprocess.run] gets the
    environment of the script and may change any file, and its exit status
    is not looked at.  The value written to [ANTHROPIC_AUTH_TOKEN] is a
    credential: it is an argument of the model and no property depends on
    it. *)

Module Launcher.

Definition files : Type := string -> option string.
Definition environ : Type := string -> option string.

Record state : Type := { fs : files; env : environ }.

(** [open(path, 'w')] and the write, [os.unlink], [os.environ[k] = v]. *)
Definition write (f : files) (path content : string) : files :=
  fun p => if String.eqb p path then Some content else f p.

Definition unlink (f : files) (path : string) : files :=
  fun p => if String.eqb p path then None else f p.

Definition setenv (e : environ) (name value : string) : environ :=
  fun n => if String.eqb n name then Some value else e n.

(** [os.path.exists] *)
Definition path_exists (f : files) (path : string) : bool :=
  match f path with
  | Some _ => true
  | None => false
  end.

Definition no_such_file (path : string) : exn :=
  OSError ("[Errno 2] No such file or directory: '" ++ path ++ "'").

(** [shutil.copy2(src, dst)] *)
Definition copy2 (f : files) (src dst : string) : result files :=
  match f src with
  | None => Raise (no_such_file src)
  | Some content =>
      if String.eqb src dst
      then Raise (OSError ("'" ++ src ++ "' and '" ++ dst ++ "' are the same file"))
      else Ok (write f dst content)
  end.

(** [shutil.move(src, dst)] of a regular file onto a file path: a rename. *)
Definition move (f : files) (src dst : string) : result files :=
  match f src with
  | None => Raise (no_such_file src)
  | Some content =>
      if String.eqb src dst then Ok f else Ok (unlink (write f dst content) src)
  end.

(** [os.remove(path)] *)
Definition remove (f : files) (path : string) : result files :=
  match f path with
  | None => Raise (no_such_file path)
  | Some _ => Ok (unlink f path)
  end.

(** [s.rstrip('/')] *)
Fixpoint rstrip_slash (s : string) : string :=
  match s with
  | EmptyString => EmptyString
  | String c s' =>
      match rstrip_slash s' with
      | EmptyString => if Ascii.eqb c "/" then EmptyString else String c EmptyString
      | t => String c t
      end
  end.

(** [s.endswith('/')] *)
Fixpoint endswith_slash (s : string) : bool :=
  match s with
  | EmptyString => false
  | String c EmptyString => Ascii.eqb c "/"
  | String _ s' => endswith_slash s'
  end.

(** [os.path.expanduser(path)] for the current user, whose home directory
    is [home]: a path that is "~" or starts with "~/" gets the home
    directory, without its trailing slashes, for the tilde.  The script
    expands "~/.claude" only; a path that names a user is outside the
    model and left as it is. *)
Definition expanduser (home path : string) : string :=
  match path with
  | String "~" rest =>
      if String.eqb rest EmptyString || Str.startsWith rest "/"
      then
        match rstrip_slash home ++ rest with
        | EmptyString => "/"
        | expanded => expanded
        end
      else path
  | _ => path
  end.

(** [os.path.join(a, b)] *)
Definition join (a b : string) : string :=
  if Str.startsWith b "/" then b
  else if String.eqb a EmptyString || endswith_slash a then a ++ b
  else a ++ "/" ++ b.

(** Lines 167-169. *)
Definition config_dir (home : string) : string := expanduser home "~/.claude".
Definition config_path (home : string) : string := join (config_dir home) "settings.json".
Definition backup_file (home : string) : string :=
  join (config_dir home) "settings.json.bak".

(** The directories above a path, the shallowest first: what is before
    each slash that ends a name.  The root is not among them. *)
Fixpoint slash_prefixes (before rest : string) : list string :=
  match rest with
  | EmptyString => []
  | String c rest' =>
      let deeper := slash_prefixes (before ++ String c EmptyString) rest' in
      if Ascii.eqb c "/" && negb (String.eqb before EmptyString)
         && negb (endswith_slash before)
      then before :: deeper
      else deeper
  end.

Definition parents (path : string) : list string := slash_prefixes EmptyString path.

(** The errors of [os.mkdir]: [FileExistsError] and [NotADirectoryError],
    both subclasses of [OSError]. *)
Definition file_exists (path : string) : exn :=
  OSError ("[Errno 17] File exists: '" ++ path ++ "'").

Definition not_a_directory (path : string) : exn :=
  OSError ("[Errno 20] Not a directory: '" ++ path ++ "'").

(** Along a chain of directories, each the parent of the next, the first
    that is a regular file stops [os.makedirs]: [os.mkdir] of the next one
    raises [NotADirectoryError]; when it is the last one, the directory
    asked for, [os.mkdir] raises [FileExistsError], which [exist_ok] lets
    pass for a directory only. *)
Fixpoint first_blocked (f : files) (chain : list string) : option exn :=
  match chain with
  | [] => None
  | p :: deeper =>
      if path_exists f p
      then
        match deeper with
        | [] => Some (file_exists p)
        | q :: _ => Some (not_a_directory q)
        end
      else first_blocked f deeper
  end.

(** [os.makedirs(dir, exist_ok=True)].  [inside] are paths below [dir]: when
    one of them is a file the directory exists and nothing is done. *)
Definition makedirs (f : files) (dir : string) (inside : list string)
  : result unit :=
  if existsb (path_exists f) inside then Ok tt
  else
    match first_blocked f (parents dir ++ [dir])%list with
    | Some e => Raise e
    | None => Ok tt
    end.

(** Line 185, on the files [f]. *)
Definition make_config_dir (home : string) (f : files) : result unit :=
  makedirs f (config_dir home) [config_path home; backup_file home].


(** Lines 178-184. *)
Definition new_config : pyval :=
  PDict [("env",
          PDict [("ANTHROPIC_DEFAULT_HAIKU_MODEL", PStr "glm-4.5-air");
                 ("ANTHROPIC_DEFAULT_SONNET_MODEL", PStr "glm-4.6");
                 ("ANTHROPIC_DEFAULT_OPUS_MODEL", PStr "glm-4.6")])].

Definition base_url : string := "https://api.z.ai/api/anthropic".

(** Lines 171-191: the backup, the settings directory, the new settings
    and the environment.  The second component is the value of
    [backup_path]: [None] when there was nothing to back up. *)
Definition prepare (home token : string) (st : state)
  : result (state * option string) :=
  (do backed <-
     (if path_exists (fs st) (config_path home)
      then
        do f1 <- copy2 (fs st) (config_path home) (backup_file home);
        Ok (f1, Some (backup_file home))
      else Ok (fs st, None));
   do made <- make_config_dir home (fst backed);
   let f2 := write (fst backed) (config_path home) (Json.dumps new_config) in
   let e2 := setenv (setenv (env st) "ANTHROPIC_AUTH_TOKEN" token)
               "ANTHROPIC_BASE_URL" base_url in
   Ok ({| fs := f2; env := e2 |}, snd backed))%res.

(** Lines 196-200: the settings are put back, or removed when there were
    none.  [if backup_path] is the truth value of the path: a string that
    is not empty. *)
Definition restore (home : string) (backup_path : option string) (f : files)
  : result files :=
  match backup_path with
  | Some path =>
      if negb (String.eqb path EmptyString) && path_exists f path
      then move f path (config_path home)
      else Ok f
  | None => remove f (config_path home)
  end.

(** The script, around the command it runs (line 194). *)
Definition script (home token : string) (command : environ -> files -> files)
  (st : state) : result state :=
  (do prepared <- prepare home token st;
   let st2 := fst prepared in
   let f3 := command (env st2) (fs st2) in
   do f4 <- restore home (snd prepared) f3;
   Ok {| fs := f4; env := env st2 |})%res.

(** A machine with settings, one without, and commands: one that changes
    nothing, one that deletes the file at a path. *)
Definition with_settings : state :=
  {| fs := fun p => if String.eqb p "/home/u/.claude/settings.json"
                    then Some "{}" else None;
     env := fun _ => None |}.



Definition file_for_home : state :=
  {| fs := fun p => if String.eqb p "/home/u" then Some "notes" else None;
     env := fun _ => None |}.

Definition idle : environ -> files -> files := fun _ f => f.


End Launcher.

(** Every character of a text is printable ASCII or a line feed. *)
Definition is_plain (c : ascii) : bool :=
  let n := nat_of_ascii c in
  ((n =? 10) || ((32 <=? n) && (n <=? 126)))%nat.

Fixpoint all_plain (s : string) : bool :=
  match s with
  | EmptyString => true
  | String c s' => is_plain c && all_plain s'
  end.

(** * Properties *)

(** ** The model on small inputs *)

Example trim_value : Str.trim " #0af " = "#0af".
Proof. reflexivity. Qed.

Example trim_keeps_inner_space : Str.trim "  1px solid  " = "1px solid".
Proof. reflexivity. Qed.

Example lower_rule : Str.lower "DIV { BACKGROUND: Blue; }" = "div { background: blue; }".
Proof. reflexivity. Qed.

Example includes_inside : Str.includes "--border-top-color" "color" = true.
Proof. reflexivity. Qed.

Example includes_is_case_sensitive : Str.includes "--Hue" "hue" = false.
Proof. reflexivity. Qed.

Example standard_property_not_kept : keeps_var "background-color" = false.
Proof. reflexivity. Qed.

Example hash_is_a_keyword : mentions_color "a { fill: #FFF; }" = true.
Proof. reflexivity. Qed.

Example margin_is_not_kept : mentions_color "p { margin: 0px; }" = false.
Proof. reflexivity. Qed.

Example nodelist_has_forEach : NodeList.has_method "forEach" = true.
Proof. reflexivity. Qed.

Example nodelist_has_no_slice : NodeList.has_method "slice" = false.
Proof. reflexivity. Qed.

Example dict_set_keeps_position :
  Dict.set [("a", PNone); ("b", PNone)] "a" (PStr "x") = [("a", PStr "x"); ("b", PNone)].
Proof. reflexivity. Qed.

Example get_default_needs_missing_key :
  Py.get (PDict [("href", PNone)]) "href" (PStr "inline") = Ok PNone /\
  Py.get (PDict []) "href" (PStr "inline") = Ok (PStr "inline").
Proof. split; reflexivity. Qed.

Example dumps_null_member :
  Json.dumps (PDict [("source", PNone)]) =
  "{" ++ lf ++ "  " ++ dq ++ "source" ++ dq ++ ": null" ++ lf ++ "}".
Proof. reflexivity. Qed.

Example dumps_nested_list :
  Json.dumps (PList [PList []; PStr "a"]) =
  "[" ++ lf ++ "  []," ++ lf ++ "  " ++ dq ++ "a" ++ dq ++ lf ++ "]".
Proof. reflexivity. Qed.

Example escape_controls :
  Json.escape (String "010" (String "001" (String "233" "\"))) = "\n\u0001\u00e9\\".
Proof. reflexivity. Qed.

Example loads_compact_text :
  Json.loads ("[null, {" ++ dq ++ "k" ++ dq ++ ":[ ]}]") =
  Some (PList [PNone; PDict [("k", PList [])]]).
Proof. reflexivity. Qed.

Example loads_repeated_key :
  Json.loads ("{" ++ dq ++ "k" ++ dq ++ ": null, " ++ dq ++ "k" ++ dq ++ ": []}") =
  Some (PDict [("k", PList [])]).
Proof. reflexivity. Qed.

Example loads_rejects_trailing_comma : Json.loads "[null,]" = None.
Proof. reflexivity. Qed.

Example unreachable_run :
  main Sample.unreachable =
  ([Launch true; NewPage; Print "Navigating to animate-ui.com..."; ev_goto;
    Print "Error: net::ERR_NAME_NOT_RESOLVED";
    Screenshot error_path false true;
    Print "Error screenshot saved as 'animate_ui_error.png'";
    BrowserClose; PlaywrightStop], Ok tt).
Proof. reflexivity. Qed.

(** Opening the page is outside the [try]: when it fails, the exception
    leaves [main], and stopping Playwright is all the cleanup there is. *)
Example no_page_run :
  main Sample.no_page =
  ([Launch true; NewPage; PlaywrightStop], Raise (PlaywrightError "Target closed")).
Proof. reflexivity. Qed.

(** ** Dictionaries *)

Lemma lookup_set (d : dict) (k k' : string) (v : pyval) :
  Dict.lookup (Dict.set d k v) k' =
  if String.eqb k k' then Some v else Dict.lookup d k'.
Proof.
  induction d as [|[k0 v0] d IH]; simpl.
  - reflexivity.
  - destruct (String.eqb k0 k) eqn:E0; simpl.
    + apply String.eqb_eq in E0; subst k0.
      destruct (String.eqb k k'); reflexivity.
    + rewrite IH. destruct (String.eqb k0 k') eqn:E1; [|reflexivity].
      apply String.eqb_eq in E1; subst k0.
      rewrite String.eqb_sym, E0. reflexivity.
Qed.

Lemma keys_set_in (d : dict) (k : string) (v : pyval) :
  In k (Dict.keys d) -> Dict.keys (Dict.set d k v) = Dict.keys d.
Proof.
  unfold Dict.keys.
  induction d as [|[k0 v0] d IH]; simpl; [tauto|].
  intros H. destruct (String.eqb k0 k) eqn:E; simpl.
  - apply String.eqb_eq in E. now subst.
  - f_equal. apply IH. destruct H as [H|H]; [|exact H].
    subst k0. rewrite String.eqb_refl in E. discriminate.
Qed.

Lemma set_fresh (d : dict) (k : string) (v : pyval) :
  ~ In k (Dict.keys d) -> Dict.set d k v = (d ++ [(k, v)])%list.
Proof.
  unfold Dict.keys.
  induction d as [|[k0 v0] d IH]; simpl; [reflexivity|].
  intros H. destruct (String.eqb k0 k) eqn:E.
  - apply String.eqb_eq in E. tauto.
  - f_equal. apply IH. tauto.
Qed.

Lemma keys_set_NoDup (d : dict) (k : string) (v : pyval) :
  NoDup (Dict.keys d) -> NoDup (Dict.keys (Dict.set d k v)).
Proof.
  intros H. destruct (in_dec string_dec k (Dict.keys d)) as [Hin|Hin].
  - now rewrite keys_set_in.
  - rewrite set_fresh by exact Hin. unfold Dict.keys in *.
    rewrite map_app. simpl. apply NoDup_app; auto.
    + constructor; [simpl; tauto | constructor].
    + intros x Hx [Hx'|[]]. now subst.
Qed.

(** ** The stylesheet script and the filter *)

Lemma stylesheets_loop_readable (todo : list StyleSheet) :
  forall sheets,
    forallb readable todo = true ->
    stylesheets_loop todo sheets = Ok (sheets ++ map sheet_entry todo)%list.
Proof.
  induction todo as [|sheet todo IH]; simpl; intros sheets H.
  - now rewrite app_nil_r.
  - apply andb_prop in H. destruct H as [Hs Ht].
    unfold sheet_entry at 1, rules_of at 1. unfold readable in Hs.
    destruct (cssRules sheet) as [rules|e]; [|discriminate].
    rewrite IH by exact Ht. now rewrite <- app_assoc.
Qed.

(** One unreadable sheet makes the whole script throw: the handler calls [str]. *)
Lemma stylesheets_loop_unreadable (todo : list StyleSheet) :
  forall sheets,
    forallb readable todo = false ->
    stylesheets_loop todo sheets = Raise (ReferenceError "str").
Proof.
  induction todo as [|sheet todo IH]; simpl; intros sheets H; [discriminate|].
  unfold readable at 1 in H.
  destruct (cssRules sheet) as [rules|e]; simpl in *.
  - now apply IH.
  - reflexivity.
Qed.

Lemma rules_loop_entries (sheet : StyleSheet) (rules : list string) :
  forall color_rules,
    rules_loop (sheet_entry sheet) (map PStr rules) color_rules =
    Ok (color_rules ++ map (rule_entry sheet) (filter mentions_color rules))%list.
Proof.
  induction rules as [|rule rules IH]; intros acc.
  - simpl. now rewrite app_nil_r.
  - cbn [map rules_loop Py.lower bind filter]. fold (mentions_color rule).
    destruct (mentions_color rule).
    + cbn [Py.get sheet_entry Dict.lookup]. simpl String.eqb. cbn [bind].
      rewrite IH. cbn [map]. now rewrite <- app_assoc.
    + apply IH.
Qed.

Lemma sheets_loop_entries (sheets : list StyleSheet) :
  forall color_rules,
    sheets_loop (map sheet_entry sheets) color_rules =
    Ok (color_rules ++ flat_map kept_of sheets)%list.
Proof.
  induction sheets as [|sheet sheets IH]; intros acc.
  - simpl. now rewrite app_nil_r.
  - cbn [map sheets_loop]. unfold sheet_entry at 1 2 3.
    cbn [Py.contains Dict.mem Py.getitem Dict.lookup]. simpl String.eqb.
    cbn [orb bind Py.iter].
    fold (sheet_entry sheet). rewrite rules_loop_entries. cbn [bind].
    rewrite IH. cbn [flat_map]. unfold kept_of at 2.
    now rewrite <- app_assoc.
Qed.

(** The result of the extraction on a page whose sheets can all be read. *)
Lemma extract_readable (page : Page) :
  forallb readable (styleSheets page) = true ->
  extract_colors_from_page page =
  Ok (PDict [("css_variables", PDict (css_vars_loop page (computedStyle page) []));
             ("color_rules", PList (flat_map kept_of (styleSheets page)));
             ("element_colors", PList (fst (element_colors_run page)))]).
Proof.
  intros H. unfold extract_colors_from_page, stylesheets_script.
  rewrite stylesheets_loop_readable by exact H.
  cbn [app evaluate css_vars_script bind Py.iter].
  rewrite sheets_loop_entries. reflexivity.
Qed.

(** ... and on a page with a sheet that cannot be read. *)
Lemma extract_unreadable (page : Page) :
  forallb readable (styleSheets page) = false ->
  extract_colors_from_page page =
  Raise (PlaywrightError "ReferenceError: str is not defined").
Proof.
  intros H. unfold extract_colors_from_page, stylesheets_script.
  rewrite stylesheets_loop_unreadable by exact H. reflexivity.
Qed.

Lemma kept_rule_texts (sheets : list StyleSheet) :
  map (fun entry => field entry "rule") (flat_map kept_of sheets) =
  map (fun rule => Some (PStr rule))
      (filter mentions_color (flat_map rules_of sheets)).
Proof.
  induction sheets as [|sheet sheets IH]; [reflexivity|].
  cbn [flat_map]. rewrite filter_app, !map_app, IH. f_equal.
  unfold kept_of. rewrite map_map. reflexivity.
Qed.

(** C1. On a page whose stylesheets can all be read, the extraction
    returns, and its [color_rules] are the encountered rules (sheets in
    document order, rules in sheet order) whose lowercase text contains a
    keyword: as many entries as there are such rules, in the same order,
    each with the rule's text unchanged. *)
Theorem color_rules_are_the_filtered_rules (page : Page) :
  forallb readable (styleSheets page) = true ->
  exists info color_rules,
    extract_colors_from_page page = Ok info /\
    field info "color_rules" = Some (PList color_rules) /\
    map (fun entry => field entry "rule") color_rules =
      map (fun rule => Some (PStr rule))
          (filter mentions_color (encountered page)) /\
    length color_rules = length (filter mentions_color (encountered page)).
Proof.
  intros H. eexists. exists (flat_map kept_of (styleSheets page)).
  split; [apply extract_readable, H|].
  split; [reflexivity|].
  pose proof (kept_rule_texts (styleSheets page)) as Ht.
  split; [exact Ht|].
  apply (f_equal (@length _)) in Ht. now rewrite !length_map in Ht.
Qed.

Lemma color_rules_are_the_filtered_rules_witness :
  exists info color_rules,
    extract_colors_from_page Sample.plain_page = Ok info /\
    field info "color_rules" = Some (PList color_rules) /\
    map (fun entry => field entry "rule") color_rules =
      [Some (PStr "a { color: red; }"); Some (PStr "div { BACKGROUND: blue; }");
       Some (PStr ".y { border: 0px; }")] /\
    length color_rules = 3.
Proof.
  apply (color_rules_are_the_filtered_rules Sample.plain_page).
  reflexivity.
Defined.

(** C3. A page with one readable and one cross-origin stylesheet: reading
    the second throws, the handler's [str(e)] throws in turn, and the whole
    extraction raises instead of skipping that sheet; the run then writes
    no JSON file. *)
Theorem unreadable_sheet_aborts_extraction :
  readable Sample.foreign = false /\
  stylesheets_script Sample.cross_origin_page = Raise (ReferenceError "str") /\
  extract_colors_from_page Sample.cross_origin_page =
    Raise (PlaywrightError "ReferenceError: str is not defined") /\
  files_of (trace (Sample.world Sample.cross_origin_page)) = [error_path].
Proof.
  split; [reflexivity|]. split; [reflexivity|].
  split; [now apply extract_unreadable|]. reflexivity.
Qed.

(** The filter itself copes with an entry that has no rules: it adds nothing. *)
Lemma sheets_loop_skips_error_entry (source : pyval) (msg : string)
  (rest color_rules : list pyval) :
  sheets_loop (PDict [("href", source); ("error", PStr msg)] :: rest) color_rules =
  sheets_loop rest color_rules.
Proof. reflexivity. Qed.

(** Every kept rule carries the [href] of its sheet as the script returned
    it: the key is always present, so the default of [get] is never used. *)
Lemma kept_rule_sources (sheets : list StyleSheet) (entry : pyval) :
  In entry (flat_map kept_of sheets) ->
  exists sheet, In sheet sheets /\
                field entry "source" = Some (of_nullable (href sheet)).
Proof.
  intros H. apply in_flat_map in H. destruct H as (sheet & Hin & H).
  unfold kept_of in H. apply in_map_iff in H. destruct H as (rule & <- & _).
  exists sheet. split; [exact Hin | reflexivity].
Qed.

(** C4. A page whose only stylesheet is an inline one (no URL) with a
    colour rule: the kept rule's [source] is [None], not the string
    "inline". *)
Theorem inline_sheet_source_is_none :
  href Sample.inline = None /\
  exists info,
    extract_colors_from_page Sample.inline_page = Ok info /\
    field info "color_rules" =
      Some (PList [PDict [("source", PNone); ("rule", PStr ".y { border: 0px; }")]]).
Proof.
  split; [reflexivity|]. eexists. split.
  - apply extract_readable. reflexivity.
  - reflexivity.
Qed.

(** ** The element script *)

(** A [NodeList] has no [slice]: the call throws whatever the list holds. *)
Lemma slice_throws (elems : NodeList.t) (from to : nat) :
  NodeList.slice elems from to = Raise (JsTypeError "elems.slice is not a function").
Proof. reflexivity. Qed.

Lemma sample_selector_raises (page : Page) (selector : string) :
  exists e, sample_selector page selector = Raise e.
Proof.
  unfold sample_selector.
  destruct (querySelectorAll page selector) as [elems|e]; simpl; eauto.
Qed.

(** Where the entries of the loop come from, and which selectors it queries.
    This holds whatever [slice] does. *)
Lemma selectors_loop_spec (page : Page) (todo : list string) :
  forall elements queried,
    snd (selectors_loop page todo elements queried) = (queried ++ todo)%list /\
    forall entry,
      In entry (fst (selectors_loop page todo elements queried)) ->
      In entry elements \/
      exists selector entries,
        In selector todo /\
        sample_selector page selector = Ok entries /\ In entry entries.
Proof.
  induction todo as [|selector todo IH]; intros elements queried.
  - simpl. rewrite app_nil_r. auto.
  - cbn [selectors_loop].
    destruct (sample_selector page selector) as [entries|e] eqn:E.
    + destruct (IH (elements ++ entries)%list (queried ++ [selector])%list) as [Hq He].
      split; [now rewrite Hq, <- app_assoc|].
      intros entry Hin. destruct (He entry Hin) as [H|(s & es & Hs & Hes & Hes')].
      * apply in_app_or in H. destruct H as [H|H]; [now left|].
        right. exists selector, entries. simpl. auto.
      * right. exists s, es. simpl. auto.
    + destruct (IH elements (queried ++ [selector])%list) as [Hq He].
      split; [now rewrite Hq, <- app_assoc|].
      intros entry Hin. destruct (He entry Hin) as [H|(s & es & Hs & Hes & Hes')].
      * now left.
      * right. exists s, es. simpl. auto.
Qed.

(** An entry pushed for a selector names that selector, and was pushed
    after [querySelectorAll] returned. *)
Lemma sample_selector_entries (page : Page) (selector : string)
  (entries : list pyval) (entry : pyval) :
  sample_selector page selector = Ok entries ->
  In entry entries ->
  field entry "selector" = Some (PStr selector) /\
  exists elems, querySelectorAll page selector = Ok elems.
Proof.
  unfold sample_selector. intros H Hin.
  destruct (querySelectorAll page selector) as [elems|e]; [|discriminate].
  split; [|eauto]. cbn [bind] in H.
  destruct (NodeList.slice elems 0 5) as [firsts|e]; [|discriminate].
  cbn [bind] in H. injection H as <-.
  apply in_map_iff in Hin. destruct Hin as (el & <- & _). reflexivity.
Qed.

(** The script never collects anything. *)
Lemma element_colors_empty (page : Page) :
  element_colors_script page = Ok (PList []).
Proof.
  unfold element_colors_script. do 2 f_equal.
  destruct (fst (element_colors_run page)) as [|entry rest] eqn:E; [reflexivity|].
  destruct (selectors_loop_spec page selectors [] []) as [_ He].
  destruct (He entry) as [[]|(s & es & _ & Hs & _)].
  - unfold element_colors_run in E. rewrite E. now left.
  - destruct (sample_selector_raises page s) as [e He']. congruence.
Qed.

(** C2. A page on which [button] matches six elements: no sample at all is
    recorded for it (nor for any other selector), where five are expected. *)
Theorem six_buttons_yield_no_samples :
  (exists matches,
      querySelectorAll Sample.buttons_page "button" = Ok matches /\
      length matches = 6) /\
  element_colors_script Sample.buttons_page = Ok (PList []) /\
  exists info,
    extract_colors_from_page Sample.buttons_page = Ok info /\
    field info "element_colors" = Some (PList []).
Proof.
  split; [eexists; split; reflexivity|].
  split; [reflexivity|].
  eexists. split; [apply extract_readable|]; reflexivity.
Qed.

(** C6. When querying a selector of the list throws, the script still
    returns: none of its entries belongs to that selector, and every
    selector of the list, those after it included, has been queried, in
    order. *)
Theorem throwing_selector_is_skipped (page : Page) (selector : string) (e : exn) :
  In selector selectors ->
  querySelectorAll page selector = Raise e ->
  exists entries,
    evaluate (element_colors_script page) = Ok (PList entries) /\
    (forall entry, In entry entries ->
                   field entry "selector" <> Some (PStr selector)) /\
    snd (element_colors_run page) = selectors.
Proof.
  intros _ Hq. exists (fst (element_colors_run page)).
  destruct (selectors_loop_spec page selectors [] []) as [Hs He].
  split; [reflexivity|]. split; [|exact Hs].
  intros entry Hin Hf.
  destruct (He entry Hin) as [[]|(s & es & _ & Hok & Hes)].
  destruct (sample_selector_entries _ _ _ _ Hok Hes) as [Hf' [elems Hq']].
  assert (s = selector) by congruence. subst s. congruence.
Qed.

Lemma throwing_selector_is_skipped_witness :
  exists entries,
    evaluate (element_colors_script Sample.bad_selector_page) = Ok (PList entries) /\
    (forall entry, In entry entries -> field entry "selector" <> Some (PStr ".btn")) /\
    snd (element_colors_run Sample.bad_selector_page) = selectors.
Proof.
  apply (throwing_selector_is_skipped Sample.bad_selector_page ".btn"
           (DOMException "SyntaxError" "not a valid selector")).
  - simpl. auto.
  - reflexivity.
Defined.

(** ** The custom property script *)

Lemma css_vars_loop_lookup (page : Page) (props : list string) (prop : string) :
  forall vars,
    Dict.lookup (css_vars_loop page props vars) prop =
    if existsb (String.eqb prop) props && keeps_var prop
    then Some (PStr (Str.trim (getPropertyValue page prop)))
    else Dict.lookup vars prop.
Proof.
  induction props as [|p props IH]; intros vars; [reflexivity|].
  cbn [css_vars_loop existsb].
  destruct (String.eqb prop p) eqn:E.
  - apply String.eqb_eq in E. subst p. cbn [orb].
    destruct (keeps_var prop) eqn:K; rewrite IH.
    + now rewrite andb_true_r, lookup_set, String.eqb_refl,
        Tauto.if_same.
    + now rewrite !andb_false_r.
  - cbn [orb]. destruct (keeps_var p); rewrite IH; [|reflexivity].
    rewrite lookup_set, String.eqb_sym, E. reflexivity.
Qed.

Lemma css_vars_loop_keys (page : Page) (props : list string) :
  forall vars,
    NoDup (Dict.keys vars) ->
    NoDup (Dict.keys (css_vars_loop page props vars)).
Proof.
  induction props as [|p props IH]; intros vars H; [exact H|].
  cbn [css_vars_loop]. destruct (keeps_var p); apply IH; [|exact H].
  now apply keys_set_NoDup.
Qed.


(** ** Actions *)

Lemma bind_returns {A B} (m : action A) (f : A -> action B) (t : list event) (a : A) :
  m = (t, Ok a) -> Act.bind m f = ((t ++ fst (f a))%list, snd (f a)).
Proof. intros ->. simpl. now destruct (f a). Qed.

Lemma bind_raises {A B} (m : action A) (f : A -> action B) (t : list event) (e : exn) :
  m = (t, Raise e) -> Act.bind m f = (t, Raise e).
Proof. now intros ->. Qed.

Lemma fst_bind {A B} (m : action A) (f : A -> action B) :
  fst (Act.bind m f) =
  (fst m ++ match snd m with Ok a => fst (f a) | Raise _ => [] end)%list.
Proof.
  destruct m as [t [a|e]]; simpl.
  - now destruct (f a).
  - now rewrite app_nil_r.
Qed.

Lemma snd_bind {A B} (m : action A) (f : A -> action B) (a : A) :
  snd m = Ok a -> snd (Act.bind m f) = snd (f a).
Proof. destruct m as [t r]. simpl. intros ->. now destruct (f a). Qed.

Lemma prints_only_ret {A} (a : A) : prints_only (Act.ret a).
Proof. now exists []. Qed.

Lemma prints_only_lift {A} (r : result A) : prints_only (Act.lift r).
Proof. now exists []. Qed.

Lemma prints_only_print (line : string) : prints_only (print line).
Proof. now exists [line]. Qed.

Lemma prints_only_bind {A B} (m : action A) (f : A -> action B) :
  prints_only m -> (forall a, prints_only (f a)) -> prints_only (Act.bind m f).
Proof.
  intros [l Hl] Hf. unfold prints_only. rewrite fst_bind, Hl.
  destruct (snd m) as [a|e].
  - destruct (Hf a) as [l' ->]. exists (l ++ l')%list. now rewrite map_app.
  - exists l. now rewrite app_nil_r.
Qed.

Create HintDb prints.
#[local] Hint Resolve prints_only_ret prints_only_lift prints_only_print : prints.

Ltac prints_only_tac :=
  repeat first
    [ solve [auto with prints]
    | apply prints_only_bind; [|intros ?]
    | match goal with
      | |- prints_only (if ?b then _ else _) => destruct b
      end ].

Lemma print_variables_prints (items : dict) : prints_only (print_variables items).
Proof.
  induction items as [|[var value] items IH]; cbn [print_variables];
    prints_only_tac.
Qed.

Lemma print_rules_prints (rules : list pyval) : prints_only (print_rules rules).
Proof.
  induction rules as [|rule rules IH]; cbn [print_rules];
    prints_only_tac.
Qed.

#[local] Hint Resolve print_variables_prints print_rules_prints : prints.

Lemma print_summary_prints (colors_info : pyval) :
  prints_only (print_summary colors_info).
Proof. unfold print_summary. prints_only_tac. Qed.

Lemma returns_bind {A B} (m : action A) (f : A -> action B) (a : A) :
  snd m = Ok a -> returns (f a) -> returns (Act.bind m f).
Proof.
  destruct m as [t r]. simpl. intros -> [b Hb]. exists b.
  simpl. destruct (f a). exact Hb.
Qed.

Lemma print_variables_returns (items : dict) : returns (print_variables items).
Proof.
  induction items as [|[var value] items IH]; cbn [print_variables].
  - now exists tt.
  - eapply returns_bind; [reflexivity | exact IH].
Qed.

(** Printing the rules returns when every entry has a [rule]. *)
Lemma print_rules_returns (rules : list pyval) :
  Forall (fun entry => exists text, Py.getitem entry "rule" = Ok text) rules ->
  returns (print_rules rules).
Proof.
  induction 1 as [|rule rules [text Ht] _ IH]; cbn [print_rules].
  - now exists tt.
  - eapply returns_bind; [exact Ht|].
    eapply returns_bind; [reflexivity | exact IH].
Qed.

Lemma kept_entries_have_rule (sheets : list StyleSheet) :
  Forall (fun entry => exists text, Py.getitem entry "rule" = Ok text)
         (flat_map kept_of sheets).
Proof.
  apply Forall_forall. intros entry H.
  apply in_flat_map in H. destruct H as (sheet & _ & H).
  apply in_map_iff in H. destruct H as (rule & <- & _).
  now exists (PStr rule).
Qed.

Lemma Forall_firstn {A} (P : A -> Prop) (n : nat) (l : list A) :
  Forall P l -> Forall P (firstn n l).
Proof.
  intros H. revert n.
  induction H as [|x l Hx _ IH]; intros [|n]; simpl; auto.
Qed.

(** The summary of an extraction result is printed to the end. *)
Lemma print_summary_returns (vars : dict) (sheets : list StyleSheet)
  (elements : list pyval) :
  returns (print_summary
             (PDict [("css_variables", PDict vars);
                     ("color_rules", PList (flat_map kept_of sheets));
                     ("element_colors", PList elements)])).
Proof.
  unfold print_summary.
  repeat (eapply returns_bind; [reflexivity|]).
  eapply returns_bind with (a := tt).
  - destruct vars as [|kv vars]; cbn [Py.truthy]; [reflexivity|].
    pose proof (print_variables_returns (kv :: vars)) as [[] H].
    erewrite snd_bind by reflexivity.
    erewrite snd_bind by reflexivity. exact H.
  - repeat (eapply returns_bind; [reflexivity|]).
    eapply returns_bind with (a := tt).
    + destruct (print_rules_returns (firstn 10 (flat_map kept_of sheets)))
        as [[] H]; [|exact H].
      apply Forall_firstn, kept_entries_have_rule.
    + destruct (_ <? _)%nat; now exists tt.
Qed.

(** ** The run *)

(** What the [try] block does, path by path. *)
Lemma main_try_cases (w : World) :
  match goto_raises w with
  | Some e => main_try w = (until_goto, Raise e)
  | None =>
      match extract_colors_from_page (document w) with
      | Raise e => main_try w = (until_extract, Raise e)
      | Ok info =>
          match open_raises w with
          | Some e => main_try w = (until_extract, Raise e)
          | None =>
              exists lines r,
                print_summary info = (map Print lines, r) /\
                main_try w =
                match r, screenshot_raises w with
                | Raise e, _ => (until_dump info ++ map Print lines, Raise e)
                | Ok _, Some e =>
                    (until_dump info ++ map Print lines ++
                       [Screenshot screenshot_path true false], Raise e)
                | Ok _, None =>
                    (until_dump info ++ map Print lines ++
                       [Screenshot screenshot_path true true;
                        Print (lf ++ "Screenshot saved as 'animate_ui_screenshot.png'")],
                     Ok tt)
                end%list
          end
      end
  end.
Proof.
  unfold main_try.
  destruct (goto_raises w) as [e|]; [reflexivity|].
  destruct (extract_colors_from_page (document w)) as [info|e]; [|reflexivity].
  destruct (open_raises w) as [e|]; [reflexivity|].
  destruct (print_summary_prints info) as [lines Hl].
  destruct (print_summary info) as [t r] eqn:E. simpl in Hl. subst t.
  exists lines, r. split; [reflexivity|].
  cbn [Act.call print Act.bind Act.lift app]. rewrite E.
  destruct r as [[]|e]; [|reflexivity].
  destruct (screenshot_raises w) as [e|]; reflexivity.
Qed.

(** The handler logs the error, tries the screenshot and returns. *)
Lemma main_except_cases (w : World) (e : exn) :
  main_except w e =
  match error_screenshot_raises w with
  | None =>
      ([Print ("Error: " ++ exn_message e); Screenshot error_path false true;
        Print "Error screenshot saved as 'animate_ui_error.png'"], Ok tt)
  | Some _ =>
      ([Print ("Error: " ++ exn_message e); Screenshot error_path false false], Ok tt)
  end.
Proof.
  unfold main_except. now destruct (error_screenshot_raises w).
Qed.

Lemma main_guarded_returns (w : World) : snd (main_guarded w) = Ok tt.
Proof.
  unfold main_guarded, Act.try_except.
  destruct (main_try w) as [t [[]|e]]; [reflexivity|].
  rewrite main_except_cases. now destruct (error_screenshot_raises w).
Qed.

(** A run that obtains its page: the guarded block, then the cleanup. *)
Lemma main_with_page (w : World) :
  launch_raises w = None ->
  new_page_raises w = None ->
  main w =
  ([Launch true; NewPage] ++ fst (main_guarded w) ++ [BrowserClose; PlaywrightStop],
   Ok tt)%list.
Proof.
  intros Hl Hn. unfold main. rewrite Hl, Hn.
  pose proof (main_guarded_returns w) as H.
  destruct (main_guarded w) as [t r]. simpl in H. subst r.
  cbn. now rewrite <- app_assoc.
Qed.

(** What the guarded block logs, path by path. *)
Lemma main_guarded_cases (w : World) :
  match goto_raises w with
  | Some e => fst (main_guarded w) = until_goto ++ fst (main_except w e)
  | None =>
      match extract_colors_from_page (document w) with
      | Raise e => fst (main_guarded w) = until_extract ++ fst (main_except w e)
      | Ok info =>
          match open_raises w with
          | Some e => fst (main_guarded w) = until_extract ++ fst (main_except w e)
          | None =>
              exists lines r,
                print_summary info = (map Print lines, r) /\
                fst (main_guarded w) =
                match r, screenshot_raises w with
                | Raise e, _ =>
                    until_dump info ++ map Print lines ++ fst (main_except w e)
                | Ok _, Some e =>
                    until_dump info ++ map Print lines ++
                    [Screenshot screenshot_path true false] ++ fst (main_except w e)
                | Ok _, None =>
                    until_dump info ++ map Print lines ++
                    [Screenshot screenshot_path true true;
                     Print (lf ++ "Screenshot saved as 'animate_ui_screenshot.png'")]
                end
          end
      end
  end%list.
Proof.
  pose proof (main_try_cases w) as H. unfold main_guarded, Act.try_except.
  destruct (goto_raises w) as [e|].
  { rewrite H. now destruct (main_except w e). }
  destruct (extract_colors_from_page (document w)) as [info|e].
  2: { rewrite H. now destruct (main_except w e). }
  destruct (open_raises w) as [e|].
  { rewrite H. now destruct (main_except w e). }
  destruct H as (lines & r & Hs & ->). exists lines, r. split; [exact Hs|].
  destruct r as [[]|e].
  - destruct (screenshot_raises w) as [e|]; [|reflexivity].
    destruct (main_except w e). cbn [fst]. now rewrite <- !app_assoc.
  - destruct (main_except w e). cbn [fst]. now rewrite <- !app_assoc.
Qed.

Lemma no_close_in_prints (lines : list string) :
  filter is_close (map Print lines) = [].
Proof. induction lines; simpl; auto. Qed.

Lemma no_close_in_handler (w : World) (e : exn) :
  filter is_close (fst (main_except w e)) = [].
Proof.
  rewrite main_except_cases. now destruct (error_screenshot_raises w).
Qed.

Lemma no_close_in_guarded (w : World) :
  filter is_close (fst (main_guarded w)) = [].
Proof.
  pose proof (main_guarded_cases w) as H.
  destruct (goto_raises w) as [e|];
    [|destruct (extract_colors_from_page (document w)) as [info|e];
      [destruct (open_raises w) as [e|]|]];
    try (rewrite H, filter_app, no_close_in_handler; reflexivity).
  destruct H as (lines & r & _ & ->).
  destruct r as [[]|e]; [destruct (screenshot_raises w) as [e|]|];
    rewrite ?filter_app, ?no_close_in_prints, ?no_close_in_handler; reflexivity.
Qed.

(** Every run, whatever fails, ends by stopping Playwright. *)
Lemma playwright_stopped_last (w : World) :
  exists before, trace w = (before ++ [PlaywrightStop])%list.
Proof.
  unfold trace, main, Act.finally.
  destruct (_ ;; _)%act as [t r]. exists t. reflexivity.
Qed.

(** C8, as stated for every exit path, fails on the path where
    [browser.new_page] raises: the browser has been launched, [main] is
    left by the exception before the [try] is entered, and [browser.close]
    is never called. *)
Lemma browser_left_open_without_page :
  launch_raises Sample.no_page = None /\
  In (Launch true) (trace Sample.no_page) /\
  ~ In BrowserClose (trace Sample.no_page) /\
  length (filter is_close (trace Sample.no_page)) = 0 /\
  outcome Sample.no_page = Raise (PlaywrightError "Target closed").
Proof.
  split; [reflexivity|]. split; [now left|]. split.
  - cbn. intuition discriminate.
  - split; reflexivity.
Qed.

(** C8, amended. In every run that has launched its browser and opened its
    page - whether it succeeds, fails in navigation or extraction, or fails
    again in the screenshot of the handler - [browser.close] is called
    exactly once, as the last step before Playwright stops, and the run
    returns. *)
Theorem browser_closed_exactly_once (w : World) :
  launch_raises w = None ->
  new_page_raises w = None ->
  length (filter is_close (trace w)) = 1 /\
  (exists before, trace w = (before ++ [BrowserClose; PlaywrightStop])%list) /\
  outcome w = Ok tt.
Proof.
  intros Hl Hn. unfold trace, outcome. rewrite (main_with_page w Hl Hn).
  cbn [fst snd]. split; [|split; [|reflexivity]].
  - cbn [app filter is_close].
    now rewrite filter_app, no_close_in_guarded.
  - exists ([Launch true; NewPage] ++ fst (main_guarded w))%list.
    now rewrite <- app_assoc.
Qed.

Lemma browser_closed_exactly_once_witness :
  length (filter is_close (trace Sample.unreachable)) = 1 /\
  (exists before,
      trace Sample.unreachable = (before ++ [BrowserClose; PlaywrightStop])%list) /\
  outcome Sample.unreachable = Ok tt.
Proof.
  apply (browser_closed_exactly_once Sample.unreachable); reflexivity.
Defined.

(** C7. When navigation fails, or the extraction raises, the run returns
    normally; it has written no JSON file, not even in part; it has tried
    the error screenshot (whose own failure changes nothing of this); and
    it has navigated once, without a retry. *)
Theorem failed_run_writes_no_json (w : World) :
  launch_raises w = None ->
  new_page_raises w = None ->
  (goto_raises w <> None \/
   exists e, extract_colors_from_page (document w) = Raise e) ->
  outcome w = Ok tt /\
  (forall path content, ~ In (FileWritten path content) (trace w)) /\
  ~ In json_path (files_of (trace w)) /\
  error_shot_attempted (trace w) /\
  length (filter is_goto (trace w)) = 1.
Proof.
  intros Hl Hn Hfail. unfold trace, outcome, error_shot_attempted.
  rewrite (main_with_page w Hl Hn). cbn [fst snd].
  pose proof (main_guarded_cases w) as H.
  assert (exists e,
             fst (main_guarded w) = (until_goto ++ fst (main_except w e))%list \/
             fst (main_guarded w) = (until_extract ++ fst (main_except w e))%list)
    as [e Hg].
  { destruct (goto_raises w) as [e|]; [eauto|].
    destruct Hfail as [Hfail|[e He]]; [congruence|].
    rewrite He in H. eauto. }
  clear H Hfail. rewrite main_except_cases in Hg.
  split; [reflexivity|].
  destruct (error_screenshot_raises w), Hg as [-> | ->]; cbn;
    (split; [intros path content Hin; intuition discriminate|]);
    (split; [intros Hin; intuition discriminate|]);
    (split; [|reflexivity]); eexists; eauto 10.
Qed.

Lemma failed_run_writes_no_json_witness :
  outcome Sample.unreachable = Ok tt /\
  (forall path content, ~ In (FileWritten path content) (trace Sample.unreachable)) /\
  ~ In json_path (files_of (trace Sample.unreachable)) /\
  error_shot_attempted (trace Sample.unreachable) /\
  length (filter is_goto (trace Sample.unreachable)) = 1.
Proof.
  apply (failed_run_writes_no_json Sample.unreachable); try reflexivity.
  left. discriminate.
Defined.

Lemma files_of_app (t t' : list event) :
  files_of (t ++ t') = (files_of t ++ files_of t')%list.
Proof.
  induction t as [|ev t IH]; [reflexivity|].
  destruct ev as [| | | | | path full [|] | |]; simpl; now rewrite IH.
Qed.

(** Membership in a trace given as a concatenation of known pieces. *)
Ltac pick_disjunct := solve [ reflexivity | left; pick_disjunct | right; pick_disjunct ].

Ltac find_in :=
  repeat first [ rewrite in_app_iff | progress cbn [In app files_of fst] ];
  pick_disjunct.

(** A successful extraction comes from a page whose sheets were all read. *)
Lemma extract_ok_readable (page : Page) (info : pyval) :
  extract_colors_from_page page = Ok info ->
  forallb readable (styleSheets page) = true.
Proof.
  intros H. destruct (forallb readable (styleSheets page)) eqn:R; [reflexivity|].
  rewrite extract_unreadable in H by exact R. discriminate.
Qed.

Lemma summary_of_extraction_returns (page : Page) (info : pyval) :
  extract_colors_from_page page = Ok info ->
  snd (print_summary info) = Ok tt.
Proof.
  intros H. pose proof (extract_ok_readable _ _ H) as R.
  rewrite (extract_readable _ R) in H. injection H as <-.
  destruct (print_summary_returns
              (css_vars_loop page (computedStyle page) [])
              (styleSheets page) (fst (element_colors_run page))) as [[] Hs].
  exact Hs.
Qed.

(** C10. The handler also covers what follows the extraction.  When
    opening the JSON file fails, or the file is written and the full-page
    screenshot then fails, the error is logged, the error screenshot is
    tried and the run returns.  In the second case the JSON file stays, so
    with a saved error screenshot the run leaves both files behind. *)
Theorem handler_covers_late_failures (w : World) (info : pyval) (e : exn) :
  launch_raises w = None ->
  new_page_raises w = None ->
  goto_raises w = None ->
  extract_colors_from_page (document w) = Ok info ->
  (open_raises w = Some e \/
   (open_raises w = None /\ screenshot_raises w = Some e)) ->
  outcome w = Ok tt /\
  In (Print ("Error: " ++ exn_message e)) (trace w) /\
  error_shot_attempted (trace w) /\
  (open_raises w = None ->
   In (FileWritten json_path (Json.dumps info)) (trace w) /\
   In json_path (files_of (trace w)) /\
   (error_screenshot_raises w = None -> In error_path (files_of (trace w)))).
Proof.
  intros Hl Hn Hg He Hlate. unfold trace, outcome, error_shot_attempted.
  rewrite (main_with_page w Hl Hn). cbn [fst snd].
  split; [reflexivity|].
  pose proof (main_guarded_cases w) as H. rewrite Hg, He in H.
  destruct Hlate as [Ho | [Ho Hs]]; rewrite Ho in H.
  - rewrite H, main_except_cases.
    destruct (error_screenshot_raises w); cbn;
      (split; [auto 10|]); (split; [eexists; eauto 10|]);
      intros Ho'; congruence.
  - destruct H as (lines & r & Hp & ->).
    pose proof (summary_of_extraction_returns _ _ He) as Hr.
    rewrite Hp in Hr. cbn [snd] in Hr. subst r. rewrite Hs.
    rewrite main_except_cases. unfold until_dump, until_extract, until_goto.
    destruct (error_screenshot_raises w) as [e'|].
    + split; [find_in|]. split; [exists false; find_in|]. intros _.
      split; [find_in|]. split; [|discriminate].
      rewrite !files_of_app. clear. find_in.
    + split; [find_in|]. split; [exists true; find_in|]. intros _.
      split; [find_in|]. rewrite !files_of_app. split; [|intros _]; find_in.
Qed.

Lemma handler_covers_late_failures_witness :
  outcome Sample.late_failure = Ok tt /\
  In json_path (files_of (trace Sample.late_failure)) /\
  In error_path (files_of (trace Sample.late_failure)).
Proof.
  assert (extract_colors_from_page (document Sample.late_failure) =
          Ok (Sample.extracted (document Sample.late_failure))) as He
    by reflexivity.
  destruct (handler_covers_late_failures Sample.late_failure _ Sample.timeout
              eq_refl eq_refl eq_refl He (or_intror (conj eq_refl eq_refl)))
    as (Hout & _ & _ & Hfiles).
  destruct (Hfiles eq_refl) as (_ & Hjson & Herr).
  exact (conj Hout (conj Hjson (Herr eq_refl))).
Defined.

(** ** Reading the dump back *)

Lemma pyval_induction (P : pyval -> Prop) :
  P PNone ->
  (forall s, P (PStr s)) ->
  (forall l, Forall P l -> P (PList l)) ->
  (forall d, Forall (fun kv => P (snd kv)) d -> P (PDict d)) ->
  forall v, P v.
Proof.
  intros Hn Hs Hl Hd. fix IH 1. intros [|s|l|d].
  - exact Hn.
  - apply Hs.
  - apply Hl. induction l as [|x l IHl]; constructor; [apply IH | exact IHl].
  - apply Hd. induction d as [|[k x] d IHd]; constructor; [apply IH | exact IHd].
Qed.

Lemma append_assoc (a b c : string) : (a ++ b) ++ c = a ++ (b ++ c).
Proof. induction a as [|ch a IH]; simpl; [reflexivity | now rewrite IH]. Qed.

Lemma append_nil_r (a : string) : a ++ EmptyString = a.
Proof. induction a as [|ch a IH]; simpl; [reflexivity | now rewrite IH]. Qed.

Lemma length_append (a b : string) :
  String.length (a ++ b) = String.length a + String.length b.
Proof. induction a as [|ch a IH]; simpl; [reflexivity | now rewrite IH]. Qed.

Lemma scan_escape_char (c : ascii) (tail : string) :
  Json.scanstring (Json.escape_char c ++ tail) = Json.cons_char c (Json.scanstring tail).
Proof.
  destruct c as [[|] [|] [|] [|] [|] [|] [|] [|]]; reflexivity.
Qed.

Lemma scan_escape (s rest : string) :
  Json.scanstring (Json.escape s ++ String Json.quote rest) = Some (s, rest).
Proof.
  induction s as [|c s IH]; [reflexivity|].
  cbn [Json.escape]. now rewrite append_assoc, scan_escape_char, IH.
Qed.

Lemma dumps_list_cons (level : nat) (x : pyval) (xs : list pyval) :
  Json.dumps_at level (PList (x :: xs)) =
  "[" ++ Json.nl (S level) ++ Json.dumps_at (S level) x ++ items_text level xs.
Proof. reflexivity. Qed.

Lemma dumps_dict_cons (level : nat) (k : string) (x : pyval) (kxs : list (string * pyval)) :
  Json.dumps_at level (PDict ((k, x) :: kxs)) =
  "{" ++ Json.nl (S level) ++ Json.encode_string k ++ ": " ++
  Json.dumps_at (S level) x ++ members_text level kxs.
Proof. reflexivity. Qed.

Lemma skip_ws_spaces (n : nat) (s : string) :
  Json.skip_ws (Json.spaces n ++ s) = Json.skip_ws s.
Proof. induction n as [|n IH]; [reflexivity | exact IH]. Qed.

Lemma skip_ws_nl (level : nat) (s : string) :
  Json.skip_ws (Json.nl level ++ s) = Json.skip_ws s.
Proof. unfold Json.nl. cbn [append]. cbn [Json.skip_ws]. apply skip_ws_spaces. Qed.

Lemma is_value_start_cases (c : ascii) :
  is_value_start c = true ->
  c = Json.quote \/ c = "n"%char \/ c = "["%char \/ c = "{"%char.
Proof.
  unfold is_value_start. rewrite !orb_true_iff, !Ascii.eqb_eq. tauto.
Qed.

Lemma starts_value_skip (s : string) :
  starts_value s = true -> Json.skip_ws s = s.
Proof.
  destruct s as [|c r]; [discriminate|]. cbn [starts_value]. intros H.
  destruct (is_value_start_cases c H) as [-> | [-> | [-> | ->]]]; reflexivity.
Qed.

Lemma starts_value_expect (s : string) :
  starts_value s = true ->
  Json.expect "]" s = None /\ Json.expect "}" s = None /\ Json.expect "," s = None.
Proof.
  destruct s as [|c r]; [discriminate|]. cbn [starts_value]. intros H.
  destruct (is_value_start_cases c H) as [-> | [-> | [-> | ->]]]; repeat split.
Qed.

Lemma dumps_starts_value (level : nat) (v : pyval) (rest : string) :
  starts_value (Json.dumps_at level v ++ rest) = true.
Proof.
  destruct v as [|s|[|x xs]|[|[k x] kxs]]; reflexivity.
Qed.

Lemma encode_string_append (s rest : string) :
  Json.encode_string s ++ rest =
  String Json.quote (Json.escape s ++ String Json.quote rest).
Proof. unfold Json.encode_string. cbn [append]. now rewrite append_assoc. Qed.

Lemma weight_list (l : list pyval) : weight (PList l) = S (total_weight l).
Proof. reflexivity. Qed.

Lemma weight_dict (d : dict) : weight (PDict d) = S (total_weight (map snd d)).
Proof.
  cbn [weight]. f_equal.
  induction d as [|[k x] d IH]; cbn [map snd total_weight]; [reflexivity | now rewrite IH].
Qed.

Lemma weight_pos (v : pyval) : 1 <= weight v.
Proof. destruct v; cbn; lia. Qed.

Lemma total_weight_length (l : list pyval) : length l <= total_weight l.
Proof.
  induction l as [|x l IH]; cbn; [lia|]. pose proof (weight_pos x). lia.
Qed.

Lemma distinct_keys_list (l : list pyval) :
  distinct_keys (PList l) <-> Forall distinct_keys l.
Proof.
  cbn [distinct_keys]. induction l as [|x l IH].
  - split; auto.
  - rewrite IH. split.
    + intros [H1 H2]. now constructor.
    + intros H. inversion H. auto.
Qed.

Lemma distinct_keys_dict (d : dict) :
  distinct_keys (PDict d) <->
  NoDup (map fst d) /\ Forall distinct_keys (map snd d).
Proof.
  cbn [distinct_keys]. apply and_iff_compat_l.
  induction d as [|[k x] d IH].
  - split; auto.
  - rewrite IH. cbn [map snd]. split.
    + intros [H1 H2]. now constructor.
    + intros H. inversion H. auto.
Qed.

Lemma parse_value_string (fuel : nat) (r : string) :
  Json.parse_value (S fuel) (String Json.quote r) =
  match Json.scanstring r with
  | Some (str, r') => Some (PStr str, r')
  | None => None
  end.
Proof. reflexivity. Qed.

Lemma parse_value_array (fuel : nat) (r : string) :
  Json.parse_value (S fuel) (String "[" r) =
  match Json.expect "]" (Json.skip_ws r) with
  | Some r' => Some (PList [], r')
  | None =>
      match Json.parse_items (Json.parse_value fuel) fuel (Json.skip_ws r) [] with
      | Some (l, r') => Some (PList l, r')
      | None => None
      end
  end.
Proof. reflexivity. Qed.

Lemma parse_value_object (fuel : nat) (r : string) :
  Json.parse_value (S fuel) (String "{" r) =
  match Json.expect "}" (Json.skip_ws r) with
  | Some r' => Some (PDict [], r')
  | None =>
      match Json.parse_members (Json.parse_value fuel) fuel (Json.skip_ws r) [] with
      | Some (pairs, r') => Some (PDict (Json.dict_of_pairs pairs), r')
      | None => None
      end
  end.
Proof. reflexivity. Qed.

Lemma skip_ws_stop (c : ascii) (r : string) :
  Json.is_ws c = false -> Json.skip_ws (String c r) = String c r.
Proof. intros H. cbn [Json.skip_ws]. now rewrite H. Qed.

Lemma expect_same (c : ascii) (r : string) : Json.expect c (String c r) = Some r.
Proof. cbn [Json.expect]. now rewrite Ascii.eqb_refl. Qed.

Lemma expect_other (c c' : ascii) (r : string) :
  Ascii.eqb c' c = false -> Json.expect c (String c' r) = None.
Proof. intros H. cbn [Json.expect]. now rewrite H. Qed.

Lemma parse_items_text (fuel : nat) (level : nat) (rest : string) (xs : list pyval) :
  forall x acc n,
    Forall parses_back (x :: xs) ->
    Forall distinct_keys (x :: xs) ->
    total_weight (x :: xs) <= fuel ->
    length (x :: xs) <= n ->
    Json.parse_items (Json.parse_value fuel) n
      (Json.dumps_at (S level) x ++ items_text level xs ++ rest) acc =
    Some ((acc ++ x :: xs)%list, rest).
Proof.
  induction xs as [|y ys IH]; intros x acc n Hp Hd Hw Hn;
    (destruct n as [|n]; [cbn in Hn; lia|]); cbn [Json.parse_items];
    inversion Hp as [|? ? Hx Hp']; subst; inversion Hd as [|? ? Hdx Hd']; subst;
    rewrite (Hx Hdx) by (cbn in Hw; lia); cbn [items_text].
  - rewrite append_assoc, skip_ws_nl. cbn [append].
    rewrite skip_ws_stop by reflexivity. now rewrite expect_same.
  - fold (items_text level ys). rewrite !append_assoc. cbn [append].
    rewrite skip_ws_stop by reflexivity.
    rewrite expect_other by reflexivity. rewrite expect_same.
    rewrite skip_ws_nl, starts_value_skip by apply dumps_starts_value.
    rewrite IH; auto.
    + now rewrite <- app_assoc.
    + cbn in Hw |- *. lia.
    + cbn in Hn |- *. lia.
Qed.

Lemma parse_members_text (fuel : nat) (level : nat) (rest : string)
  (kxs : list (string * pyval)) :
  forall k x acc n,
    Forall parses_back (x :: map snd kxs) ->
    Forall distinct_keys (x :: map snd kxs) ->
    total_weight (x :: map snd kxs) <= fuel ->
    length (x :: map snd kxs) <= n ->
    Json.parse_members (Json.parse_value fuel) n
      (Json.encode_string k ++ ": " ++ Json.dumps_at (S level) x ++
       members_text level kxs ++ rest) acc =
    Some ((acc ++ (k, x) :: kxs)%list, rest).
Proof.
  induction kxs as [|[k' y] ys IH]; intros k x acc n Hp Hd Hw Hn;
    (destruct n as [|n]; [cbn in Hn; lia|]); cbn [Json.parse_members];
    inversion Hp as [|? ? Hx Hp']; subst; inversion Hd as [|? ? Hdx Hd']; subst;
    rewrite encode_string_append, expect_same, scan_escape; cbn [append];
    rewrite skip_ws_stop by reflexivity; rewrite expect_same;
    cbn [Json.skip_ws Json.is_ws]; 
    change (Json.is_ws " ") with true; cbv iota;
    rewrite starts_value_skip by apply dumps_starts_value;
    rewrite (Hx Hdx) by (cbn in Hw; lia); cbn [members_text].
  - rewrite append_assoc, skip_ws_nl. cbn [append].
    rewrite skip_ws_stop by reflexivity. now rewrite expect_same.
  - fold (members_text level ys). rewrite !append_assoc. cbn [append].
    rewrite skip_ws_stop by reflexivity.
    rewrite expect_other by reflexivity. rewrite expect_same.
    rewrite skip_ws_nl, <- !append_assoc, encode_string_append.
    rewrite skip_ws_stop by reflexivity.
    rewrite <- encode_string_append, !append_assoc.
    change (String ":" (String " " ?s)) with (": " ++ s).
    rewrite IH; auto.
    + now rewrite <- app_assoc.
    + cbn in Hw |- *. lia.
    + cbn in Hn |- *. lia.
Qed.

Lemma fold_set_fresh (pairs : list (string * pyval)) :
  forall acc : dict,
    NoDup (map fst (acc ++ pairs)) ->
    fold_left (fun d kv => Dict.set d (fst kv) (snd kv)) pairs acc = (acc ++ pairs)%list.
Proof.
  induction pairs as [|[k v] pairs IH]; intros acc H; cbn [fold_left fst snd].
  - now rewrite app_nil_r.
  - rewrite set_fresh.
    + rewrite IH; rewrite <- app_assoc; [reflexivity | exact H].
    + rewrite map_app in H. apply NoDup_remove_2 in H.
      intros Hin. apply H. apply in_or_app. now left.
Qed.

Lemma dict_of_distinct_pairs (pairs : list (string * pyval)) :
  NoDup (map fst pairs) -> Json.dict_of_pairs pairs = pairs.
Proof. intros H. unfold Json.dict_of_pairs. now rewrite fold_set_fresh. Qed.

Lemma Forall_map_snd (P : pyval -> Prop) (d : dict) :
  Forall (fun kv => P (snd kv)) d -> Forall P (map snd d).
Proof. induction 1; constructor; auto. Qed.

Theorem dumps_parses_back (v : pyval) : parses_back v.
Proof.
  induction v as [|s|l IH|d IH] using pyval_induction;
    intros Hd level fuel rest Hw;
    (destruct fuel as [|fuel]; [pose proof (weight_pos PNone); cbn in Hw; lia|]).
  - reflexivity.
  - cbn [Json.dumps_at]. rewrite encode_string_append, parse_value_string.
    now rewrite scan_escape.
  - destruct l as [|x xs]; [reflexivity|].
    rewrite dumps_list_cons, !append_assoc. cbn [append].
    rewrite parse_value_array, skip_ws_nl.
    rewrite starts_value_skip by apply dumps_starts_value.
    destruct (starts_value_expect _ (dumps_starts_value (S level) x
                (items_text level xs ++ rest))) as (-> & _ & _).
    rewrite weight_list in Hw. apply distinct_keys_list in Hd.
    pose proof (total_weight_length (x :: xs)).
    rewrite (parse_items_text fuel level rest xs x [] fuel IH Hd) by lia.
    reflexivity.
  - destruct d as [|[k x] kxs]; [reflexivity|].
    rewrite dumps_dict_cons, !append_assoc. cbn [append].
    rewrite parse_value_object, skip_ws_nl.
    rewrite encode_string_append, skip_ws_stop by reflexivity.
    rewrite expect_other by reflexivity.
    rewrite <- encode_string_append.
    rewrite weight_dict in Hw. apply distinct_keys_dict in Hd.
    destruct Hd as [Hk Hd]. apply Forall_map_snd in IH.
    change (String ":" (String " " ?s)) with (": " ++ s).
    pose proof (total_weight_length (map snd ((k, x) :: kxs))).
    cbn [map snd] in *.
    rewrite (parse_members_text fuel level rest kxs k x [] fuel IH Hd) by lia.
    cbn [app]. now rewrite dict_of_distinct_pairs.
Qed.

Lemma total_weight_items (level : nat) (xs : list pyval) :
  Forall (fun v => forall level, weight v <= String.length (Json.dumps_at level v)) xs ->
  total_weight xs <= String.length (items_text level xs).
Proof.
  induction 1 as [|x xs Hx _ IH]; cbn [total_weight items_text]; [lia|].
  fold (items_text level xs). rewrite !length_append.
  specialize (Hx (S level)). lia.
Qed.

Lemma total_weight_members (level : nat) (kxs : list (string * pyval)) :
  Forall (fun kv => forall level,
              weight (snd kv) <= String.length (Json.dumps_at level (snd kv))) kxs ->
  total_weight (map snd kxs) <= String.length (members_text level kxs).
Proof.
  induction 1 as [|[k x] kxs Hx _ IH]; cbn [total_weight members_text map snd]; [lia|].
  fold (members_text level kxs). rewrite !length_append.
  specialize (Hx (S level)). cbn [snd] in Hx. lia.
Qed.

Lemma weight_le_length (v : pyval) :
  forall level, weight v <= String.length (Json.dumps_at level v).
Proof.
  induction v as [|s|l IH|d IH] using pyval_induction; intros level.
  - cbn. lia.
  - cbn. lia.
  - destruct l as [|x xs]; [cbn; lia|].
    rewrite dumps_list_cons, weight_list, !length_append.
    inversion IH as [|? ? Hx Hxs]; subst.
    pose proof (total_weight_items level xs Hxs). specialize (Hx (S level)).
    cbn [total_weight String.length]. lia.
  - destruct d as [|[k x] kxs]; [cbn; lia|].
    rewrite dumps_dict_cons, weight_dict, !length_append.
    inversion IH as [|? ? Hx Hxs]; subst.
    pose proof (total_weight_members level kxs Hxs). specialize (Hx (S level)).
    cbn [total_weight String.length map snd] in *. lia.
Qed.

(** Reading back what was dumped gives the value. *)
Theorem loads_dumps (v : pyval) :
  distinct_keys v -> Json.loads (Json.dumps v) = Some v.
Proof.
  intros Hd. unfold Json.loads, Json.dumps.
  pose proof (dumps_starts_value 0 v EmptyString) as Hs.
  rewrite append_nil_r in Hs. rewrite starts_value_skip by exact Hs.
  pose proof (dumps_parses_back v Hd 0 (String.length (Json.dumps_at 0 v))
                EmptyString (weight_le_length v 0)) as Hp.
  rewrite append_nil_r in Hp. now rewrite Hp.
Qed.

(** *** The dump of an extraction result *)

Lemma set_Forall (P : string * pyval -> Prop) (d : dict) (k : string) (v : pyval) :
  Forall P d -> P (k, v) -> Forall P (Dict.set d k v).
Proof.
  intros H Hkv. induction H as [|[k' v'] d Hx Hd IH]; cbn [Dict.set].
  - now constructor.
  - destruct (String.eqb k' k); constructor; auto.
Qed.

Lemma css_vars_loop_values (page : Page) (props : list string) :
  forall vars,
    Forall (fun kv => distinct_keys (snd kv)) vars ->
    Forall (fun kv => distinct_keys (snd kv)) (css_vars_loop page props vars).
Proof.
  induction props as [|p props IH]; intros vars H; [exact H|].
  cbn [css_vars_loop]. destruct (keeps_var p); apply IH; [|exact H].
  apply set_Forall; [exact H | exact I].
Qed.

Lemma kept_entries_distinct (sheets : list StyleSheet) :
  Forall distinct_keys (flat_map kept_of sheets).
Proof.
  apply Forall_forall. intros entry H.
  apply in_flat_map in H. destruct H as (sheet & _ & H).
  apply in_map_iff in H. destruct H as (rule & <- & _).
  cbn. repeat split.
  - repeat constructor; cbn; intuition discriminate.
  - now destruct (href sheet).
Qed.

(** An extraction result is a [dict] of the three collections, and every
    [dict] in it has distinct keys. *)
Lemma extraction_result_shape (page : Page) (info : pyval) :
  extract_colors_from_page page = Ok info ->
  distinct_keys info /\
  exists css_variables color_rules element_colors,
    info = PDict [("css_variables", css_variables);
                  ("color_rules", color_rules);
                  ("element_colors", element_colors)].
Proof.
  intros H. pose proof (extract_ok_readable _ _ H) as R.
  rewrite (extract_readable _ R) in H. injection H as <-.
  split; [|eauto].
  apply distinct_keys_dict. split.
  - repeat constructor; cbn; intuition discriminate.
  - cbn [map snd].
    constructor; [|constructor; [|constructor; [|constructor]]].
    + apply distinct_keys_dict. split.
      * apply (css_vars_loop_keys page (computedStyle page) []). constructor.
      * apply Forall_map_snd, css_vars_loop_values. constructor.
    + apply distinct_keys_list, kept_entries_distinct.
    + pose proof (element_colors_empty page) as He.
      unfold element_colors_script in He. injection He as ->. exact I.
Qed.

(** *** What a run writes *)

Lemma written_app (t t' : list event) :
  written (t ++ t') = (written t ++ written t')%list.
Proof.
  induction t as [|ev t IH]; [reflexivity|].
  destruct ev; cbn [app written]; now rewrite IH.
Qed.

Lemma written_in (t : list event) (path content : string) :
  In (FileWritten path content) t <-> In (path, content) (written t).
Proof.
  induction t as [|ev t IH]; [reflexivity|].
  destruct ev; cbn [In written]; rewrite IH;
    try (split; [intros [H|H]; [discriminate | exact H] | now right]).
  split; (intros [H|H]; [left; congruence | now right]).
Qed.

Lemma written_prints (lines : list string) : written (map Print lines) = [].
Proof. induction lines; cbn; auto. Qed.

Lemma written_handler (w : World) (e : exn) : written (fst (main_except w e)) = [].
Proof. rewrite main_except_cases. now destruct (error_screenshot_raises w). Qed.

(** A run writes nothing, or the dump of what it extracted. *)
Lemma written_guarded (w : World) :
  written (fst (main_guarded w)) = [] \/
  exists info,
    extract_colors_from_page (document w) = Ok info /\
    written (fst (main_guarded w)) = [(json_path, Json.dumps info)].
Proof.
  pose proof (main_guarded_cases w) as H.
  destruct (goto_raises w) as [e|];
    [|destruct (extract_colors_from_page (document w)) as [info|e];
      [destruct (open_raises w) as [e|]|]];
    try (left; rewrite H, written_app, written_handler; reflexivity).
  right. exists info. split; [reflexivity|].
  destruct H as (lines & r & _ & ->).
  destruct r as [[]|e]; [destruct (screenshot_raises w) as [e|]|];
    rewrite ?written_app, ?written_prints, ?written_handler; reflexivity.
Qed.

Lemma written_trace (w : World) :
  written (trace w) = [] \/
  exists info,
    extract_colors_from_page (document w) = Ok info /\
    written (trace w) = [(json_path, Json.dumps info)].
Proof.
  unfold trace.
  destruct (launch_raises w) as [e|] eqn:Hl.
  { left. unfold main. now rewrite Hl. }
  destruct (new_page_raises w) as [e|] eqn:Hn.
  { left. unfold main. now rewrite Hl, Hn. }
  rewrite (main_with_page w Hl Hn). cbn [fst app written].
  rewrite written_app. cbn [written]. rewrite app_nil_r.
  apply written_guarded.
Qed.

(** A run that gets as far as opening the file writes the dump. *)
Lemma dump_is_written (w : World) (info : pyval) :
  launch_raises w = None ->
  new_page_raises w = None ->
  goto_raises w = None ->
  extract_colors_from_page (document w) = Ok info ->
  open_raises w = None ->
  written (trace w) = [(json_path, Json.dumps info)].
Proof.
  intros Hl Hn Hg He Ho. unfold trace. rewrite (main_with_page w Hl Hn).
  cbn [fst app written]. rewrite written_app. cbn [written]. rewrite app_nil_r.
  pose proof (main_guarded_cases w) as H. rewrite Hg, He, Ho in H.
  destruct H as (lines & r & _ & ->).
  destruct r as [[]|e]; [destruct (screenshot_raises w) as [e|]|];
    rewrite ?written_app, ?written_prints, ?written_handler; reflexivity.
Qed.

(** C9. Whenever a run has written [animate_ui_colors.json], the content
    is the dump of the extraction result, parsing it gives that result
    back, and the result is one object whose keys are [css_variables],
    [color_rules] and [element_colors], in this order. *)
Theorem json_file_round_trips (w : World) (content : string) :
  In (FileWritten json_path content) (trace w) ->
  exists info css_variables color_rules element_colors,
    extract_colors_from_page (document w) = Ok info /\
    content = Json.dumps info /\
    Json.loads content = Some info /\
    info = PDict [("css_variables", css_variables);
                  ("color_rules", color_rules);
                  ("element_colors", element_colors)].
Proof.
  intros H. apply written_in in H.
  destruct (written_trace w) as [Hw | (info & He & Hw)]; rewrite Hw in H.
  - destruct H.
  - destruct H as [H|[]]. injection H as <-.
    destruct (extraction_result_shape _ _ He) as (Hd & a & b & c & Hi).
    exists info, a, b, c. repeat split; auto.
    now apply loads_dumps.
Qed.

Lemma json_file_round_trips_witness :
  Json.loads (Json.dumps (Sample.extracted Sample.plain_page)) =
  Some (Sample.extracted Sample.plain_page).
Proof.
  assert (In (FileWritten json_path (Json.dumps (Sample.extracted Sample.plain_page)))
             (trace (Sample.world Sample.plain_page))) as Hin.
  { vm_compute. pick_disjunct. }
  destruct (json_file_round_trips _ _ Hin) as (info & _ & _ & _ & He & _ & Hl & _).
  assert (Ok info = Ok (Sample.extracted Sample.plain_page)) as Heq
    by (rewrite <- He; reflexivity).
  injection Heq as ->. exact Hl.
Defined.

(** * Further properties *)

(** ** The extraction *)

(** X1. The extraction returns exactly when every stylesheet of the page
    can be read; otherwise it raises the Playwright error that carries the
    [ReferenceError] of the script's handler, and no other exception. *)
Theorem extraction_returns_iff_all_readable (page : Page) :
  match extract_colors_from_page page with
  | Ok _ => forallb readable (styleSheets page) = true
  | Raise e =>
      forallb readable (styleSheets page) = false /\
      e = PlaywrightError "ReferenceError: str is not defined"
  end.
Proof.
  destruct (forallb readable (styleSheets page)) eqn:R.
  - now rewrite extract_readable.
  - rewrite extract_unreadable by exact R. now split.
Qed.

Lemma kept_of_members (sheet : StyleSheet) (entry : pyval) :
  In entry (kept_of sheet) <->
  exists rule,
    In rule (rules_of sheet) /\ mentions_color rule = true /\
    entry = PDict [("source", of_nullable (href sheet)); ("rule", PStr rule)].
Proof.
  unfold kept_of. rewrite in_map_iff. split.
  - intros (rule & <- & H). apply filter_In in H. exists rule. tauto.
  - intros (rule & Hin & Hm & ->). exists rule. split; [reflexivity|].
    apply filter_In. tauto.
Qed.

(** X2. On a page whose sheets can all be read, an entry is in
    [color_rules] exactly when it pairs a rule that mentions a colour
    keyword with the [href] of a sheet that holds this rule ([None] for a
    sheet without URL). *)
Theorem color_rule_pairs_rule_with_its_sheet (page : Page) :
  forallb readable (styleSheets page) = true ->
  exists info color_rules,
    extract_colors_from_page page = Ok info /\
    field info "color_rules" = Some (PList color_rules) /\
    forall entry,
      In entry color_rules <->
      exists sheet rule,
        In sheet (styleSheets page) /\ In rule (rules_of sheet) /\
        mentions_color rule = true /\
        entry = PDict [("source", of_nullable (href sheet)); ("rule", PStr rule)].
Proof.
  intros R. eexists. exists (flat_map kept_of (styleSheets page)).
  split; [apply extract_readable, R|]. split; [reflexivity|].
  intros entry. rewrite in_flat_map. split.
  - intros (sheet & Hs & H). apply kept_of_members in H.
    destruct H as (rule & H). exists sheet, rule. tauto.
  - intros (sheet & rule & Hs & H). exists sheet. split; [exact Hs|].
    apply kept_of_members. exists rule. exact H.
Qed.

Lemma color_rule_pairs_rule_with_its_sheet_witness :
  exists info color_rules,
    extract_colors_from_page Sample.plain_page = Ok info /\
    field info "color_rules" = Some (PList color_rules) /\
    forall entry,
      In entry color_rules <->
      exists sheet rule,
        In sheet (styleSheets Sample.plain_page) /\ In rule (rules_of sheet) /\
        mentions_color rule = true /\
        entry = PDict [("source", of_nullable (href sheet)); ("rule", PStr rule)].
Proof.
  apply (color_rule_pairs_rule_with_its_sheet Sample.plain_page). reflexivity.
Defined.

Lemma rules_loop_of_strings (sheet : pyval) (source : pyval) (rules : list string) :
  Py.get sheet "href" (PStr "inline") = Ok source ->
  forall color_rules,
    rules_loop sheet (map PStr rules) color_rules =
    Ok (color_rules ++
        map (fun rule => PDict [("source", source); ("rule", PStr rule)])
            (filter mentions_color rules))%list.
Proof.
  intros Hs. induction rules as [|rule rules IH]; intros acc.
  - simpl. now rewrite app_nil_r.
  - cbn [map rules_loop Py.lower bind filter]. fold (mentions_color rule).
    destruct (mentions_color rule).
    + rewrite Hs. cbn [bind]. rewrite IH. cbn [map]. now rewrite <- app_assoc.
    + apply IH.
Qed.

(** X3. The filter accepts what the script is written to return: an entry
    that carries an error instead of rules adds nothing and does not stop
    the loop, so the result is the kept rules of the readable sheets, in
    order. *)
Theorem filter_skips_entries_without_rules (sheets : list StyleSheet) :
  sheets_loop (map intended_entry sheets) [] = Ok (flat_map kept_of sheets).
Proof.
  enough (forall acc,
             sheets_loop (map intended_entry sheets) acc =
             Ok (acc ++ flat_map kept_of sheets)%list) as H by apply (H []).
  induction sheets as [|sheet sheets IH]; intros acc.
  - simpl. now rewrite app_nil_r.
  - cbn [map flat_map]. unfold intended_entry at 1, kept_of at 1, rules_of.
    destruct (cssRules sheet) as [rules|e].
    + cbn [sheets_loop Py.contains Dict.mem Py.getitem Dict.lookup].
      simpl String.eqb. cbn [orb bind Py.iter].
      rewrite (rules_loop_of_strings _ (of_nullable (href sheet))) by reflexivity.
      cbn [bind]. rewrite IH. now rewrite <- app_assoc.
    + cbn [sheets_loop Py.contains Dict.mem]. simpl String.eqb.
      cbn [orb bind filter map app]. apply IH.
Qed.

(** X4. The sentinel is used for an entry that has rules but no [href]
    key at all: each of its kept rules gets the source "inline". *)
Theorem missing_href_gives_inline (d : dict) (rules : list string) :
  Dict.lookup d "href" = None ->
  Dict.lookup d "rules" = Some (PList (map PStr rules)) ->
  sheets_loop [PDict d] [] = Ok (inline_entries rules).
Proof.
  intros Hh Hr. cbn [sheets_loop Py.contains Py.getitem].
  assert (Dict.mem d "rules" = true) as Hm.
  { clear Hh. induction d as [|[k v] d IH]; [discriminate|].
    cbn [Dict.mem Dict.lookup] in *.
    destruct (String.eqb k "rules"); [reflexivity | now apply IH]. }
  rewrite Hm, Hr. cbn [bind Py.iter].
  rewrite (rules_loop_of_strings _ (PStr "inline")).
  - reflexivity.
  - cbn [Py.get]. now rewrite Hh.
Qed.

Lemma missing_href_gives_inline_witness :
  sheets_loop [PDict [("rules", PList (map PStr ["a { color: red; }"; "p { margin: 0px; }"]))]] [] =
  Ok [PDict [("source", PStr "inline"); ("rule", PStr "a { color: red; }")]].
Proof.
  apply (missing_href_gives_inline
           [("rules", PList (map PStr ["a { color: red; }"; "p { margin: 0px; }"]))]
           ["a { color: red; }"; "p { margin: 0px; }"]); reflexivity.
Defined.

(** X5. Whatever the page holds, the element script queries the seven
    selectors in order and returns an empty list, and so [element_colors]
    is empty in every extraction result. *)
Theorem element_colors_always_empty (page : Page) :
  evaluate (element_colors_script page) = Ok (PList []) /\
  snd (element_colors_run page) = selectors /\
  match extract_colors_from_page page with
  | Ok info => field info "element_colors" = Some (PList [])
  | Raise _ => True
  end.
Proof.
  pose proof (element_colors_empty page) as He.
  split; [now rewrite He|]. split.
  - apply (selectors_loop_spec page selectors [] []).
  - destruct (forallb readable (styleSheets page)) eqn:R.
    + rewrite extract_readable by exact R.
      unfold element_colors_script in He. injection He as ->. reflexivity.
    + now rewrite extract_unreadable.
Qed.

Lemma css_vars_loop_fresh_keys (page : Page) (props : list string) :
  forall vars,
    NoDup props ->
    (forall prop, In prop props -> ~ In prop (Dict.keys vars)) ->
    Dict.keys (css_vars_loop page props vars) =
    (Dict.keys vars ++ filter keeps_var props)%list.
Proof.
  induction props as [|p props IH]; intros vars Hnd Hfresh.
  - simpl. now rewrite app_nil_r.
  - inversion Hnd as [|? ? Hp Hnd']; subst. cbn [css_vars_loop filter].
    destruct (keeps_var p).
    + rewrite IH; [| exact Hnd' |].
      * rewrite set_fresh by (apply Hfresh; now left).
        unfold Dict.keys. rewrite map_app, <- app_assoc. reflexivity.
      * intros q Hq. rewrite set_fresh by (apply Hfresh; now left).
        unfold Dict.keys. rewrite map_app, in_app_iff. cbn.
        intros [H|[H|[]]].
        -- apply (Hfresh q); [now right | exact H].
        -- now subst.
    + apply IH; [exact Hnd'|]. intros q Hq. apply Hfresh. now right.
Qed.

(** X6. When the computed style enumerates no name twice, the keys of
    the returned mapping are the kept names in the order of the
    enumeration. *)
Theorem css_variables_keep_enumeration_order (page : Page) :
  NoDup (computedStyle page) ->
  evaluate (css_vars_script page) = Ok (PDict (kept_vars page)) /\
  Dict.keys (kept_vars page) = filter keeps_var (computedStyle page).
Proof.
  intros H. split; [reflexivity|].
  unfold kept_vars. rewrite css_vars_loop_fresh_keys; auto.
Qed.

Lemma css_variables_keep_enumeration_order_witness :
  evaluate (css_vars_script Sample.plain_page) = Ok (PDict (kept_vars Sample.plain_page)) /\
  Dict.keys (kept_vars Sample.plain_page) = ["--primary-color"; "--theme-x"; "--hue-1"].
Proof.
  apply (css_variables_keep_enumeration_order Sample.plain_page).
  repeat constructor; cbn; intuition discriminate.
Defined.

Lemma trim_end_idempotent (s : string) :
  Str.trim_end (Str.trim_end s) = Str.trim_end s.
Proof.
  induction s as [|c s IH]; [reflexivity|]. cbn [Str.trim_end].
  destruct (Str.trim_end s) as [|d t] eqn:E.
  - destruct (Str.is_space c) eqn:Hc; [reflexivity|].
    cbn [Str.trim_end]. now rewrite Hc.
  - cbn [Str.trim_end]. cbn [Str.trim_end] in IH. now rewrite IH.
Qed.

Lemma trim_start_head (s : string) :
  Str.trim_start s = EmptyString \/
  exists c r, Str.trim_start s = String c r /\ Str.is_space c = false.
Proof.
  induction s as [|c s IH]; [now left|]. cbn [Str.trim_start].
  destruct (Str.is_space c) eqn:Hc; [exact IH|]. right. eauto.
Qed.

Lemma trim_end_head (c : ascii) (r : string) :
  Str.is_space c = false -> exists r', Str.trim_end (String c r) = String c r'.
Proof.
  intros Hc. cbn [Str.trim_end]. destruct (Str.trim_end r); [rewrite Hc|]; eauto.
Qed.

Lemma trim_idempotent (s : string) : Str.trim (Str.trim s) = Str.trim s.
Proof.
  unfold Str.trim. destruct (trim_start_head s) as [-> | (c & r & -> & Hc)].
  - reflexivity.
  - destruct (trim_end_head c r Hc) as [r' Hr]. rewrite Hr.
    cbn [Str.trim_start]. rewrite Hc, <- Hr. apply trim_end_idempotent.
Qed.

(** X7. Every value of the returned mapping is a string that trimming
    leaves unchanged: it has no white space left at either end. *)
Theorem css_variable_values_are_trimmed (page : Page) (prop : string) (value : pyval) :
  Dict.lookup (kept_vars page) prop = Some value ->
  exists text, value = PStr text /\ Str.trim text = text.
Proof.
  unfold kept_vars. rewrite css_vars_loop_lookup.
  destruct (_ && _); [|discriminate]. intros H. injection H as <-.
  eexists. split; [reflexivity | apply trim_idempotent].
Qed.

Lemma css_variable_values_are_trimmed_witness :
  exists text, PStr "#0af" = PStr text /\ Str.trim text = text.
Proof.
  apply (css_variable_values_are_trimmed Sample.plain_page "--primary-color").
  reflexivity.
Defined.

(** ** The console summary *)

Lemma runs_ret {A} (a : A) : runs (Act.ret a) [] a.
Proof. reflexivity. Qed.

Lemma runs_print (line : string) : runs (print line) [line] tt.
Proof. reflexivity. Qed.

Lemma runs_lift {A} (r : result A) (a : A) : r = Ok a -> runs (Act.lift r) [] a.
Proof. now intros ->. Qed.

Lemma runs_bind {A B} (m : action A) (f : A -> action B)
  (l1 l2 : list string) (a : A) (b : B) :
  runs m l1 a -> runs (f a) l2 b -> runs (Act.bind m f) (l1 ++ l2) b.
Proof.
  unfold runs. intros -> Hf. cbn [Act.bind]. rewrite Hf. now rewrite map_app.
Qed.

Lemma print_variables_runs (items : dict) :
  runs (print_variables items) (map var_line items) tt.
Proof.
  induction items as [|[var value] items IH]; [reflexivity|].
  cbn [print_variables map]. apply (runs_bind _ _ [_] _ tt tt); [reflexivity | exact IH].
Qed.

Lemma print_rules_runs (rules : list pyval) :
  Forall (fun entry => exists text, Py.getitem entry "rule" = Ok text) rules ->
  runs (print_rules rules) (map (fun entry => rule_line (rule_text entry)) rules) tt.
Proof.
  induction 1 as [|rule rules [text Ht] _ IH]; [reflexivity|].
  cbn [print_rules map].
  apply (runs_bind _ _ [] _ text tt); [now apply runs_lift|].
  apply (runs_bind _ _ [_] _ tt tt); [|exact IH].
  unfold rule_line, rule_text. destruct rule as [| |l|d]; try discriminate.
  cbn [Py.getitem field] in *. destruct (Dict.lookup d "rule"); [|discriminate].
  injection Ht as ->. reflexivity.
Qed.

(** The summary of a result whose rules all have a text. *)
Lemma print_summary_runs (vars : dict) (entries elements : list pyval) :
  Forall (fun entry => exists text, Py.getitem entry "rule" = Ok text) entries ->
  runs (print_summary
          (PDict [("css_variables", PDict vars);
                  ("color_rules", PList entries);
                  ("element_colors", PList elements)]))
       (summary_lines vars (map rule_text entries) (length elements)) tt.
Proof.
  intros Hr. unfold summary_lines.
  rewrite length_map, firstn_map, map_map.
  pose proof (print_rules_runs (firstn 10 entries) (Forall_firstn _ 10 _ Hr)) as Hrules.
  pose proof (print_variables_runs vars) as Hvars.
  unfold print_summary.
  apply (runs_bind _ _ [_] _ tt tt); [apply runs_print|].
  apply (runs_bind _ _ [] _ (PDict vars) tt); [now apply runs_lift|].
  apply (runs_bind _ _ [] _ (length vars) tt); [now apply runs_lift|].
  apply (runs_bind _ _ [_] _ tt tt); [apply runs_print|].
  apply (runs_bind _ _ [] _ (PList entries) tt); [now apply runs_lift|].
  apply (runs_bind _ _ [] _ (length entries) tt); [now apply runs_lift|].
  apply (runs_bind _ _ [_] _ tt tt); [apply runs_print|].
  apply (runs_bind _ _ [] _ (PList elements) tt); [now apply runs_lift|].
  apply (runs_bind _ _ [] _ (length elements) tt); [now apply runs_lift|].
  apply (runs_bind _ _ [_] _ tt tt); [apply runs_print|].
  apply (runs_bind _ _ _ _ tt tt).
  { destruct vars as [|kv vars]; cbn [Py.truthy]; [apply runs_ret|].
    apply (runs_bind _ _ [_] _ tt tt); [apply runs_print|].
    apply (runs_bind _ _ [] _ (kv :: vars) tt); [now apply runs_lift | exact Hvars]. }
  apply (runs_bind _ _ [_] _ tt tt); [apply runs_print|].
  apply (runs_bind _ _ [] _ (PList (firstn 10 entries)) tt); [now apply runs_lift|].
  apply (runs_bind _ _ [] _ (firstn 10 entries) tt); [now apply runs_lift|].
  apply (runs_bind _ _ _ _ tt tt); [exact Hrules|].
  destruct (10 <? length entries)%nat; [apply runs_print | apply runs_ret].
Qed.

Lemma kept_rule_text_list (sheets : list StyleSheet) :
  map rule_text (flat_map kept_of sheets) =
  filter mentions_color (flat_map rules_of sheets).
Proof.
  induction sheets as [|sheet sheets IH]; [reflexivity|].
  cbn [flat_map]. rewrite filter_app, map_app, IH. f_equal.
  unfold kept_of. rewrite map_map. apply map_id.
Qed.

Lemma summary_reports_the_extraction_lines (page : Page) :
  forallb readable (styleSheets page) = true ->
  print_summary (extraction_result page) =
  (map Print (summary_lines (kept_vars page) (kept_rules page) 0), Ok tt).
Proof.
  intros R. unfold kept_rules, encountered. rewrite <- kept_rule_text_list.
  apply (print_summary_runs _ _ []), kept_entries_have_rule.
Qed.

(** X8. After a successful extraction the summary is printed to its end
    without raising, and it is exactly: the header, the numbers of kept
    variables, of kept rules and of element samples (always 0), the
    variables when there is at least one, the first ten kept rules, and
    the line "... and N more rules" exactly when more than ten rules were
    kept, N being the number left out. *)
Theorem summary_reports_the_extraction (page : Page) :
  forallb readable (styleSheets page) = true ->
  exists info,
    extract_colors_from_page page = Ok info /\
    print_summary info =
    (map Print (summary_lines (kept_vars page) (kept_rules page) 0), Ok tt).
Proof.
  intros R. eexists. split; [apply extract_readable, R|].
  pose proof (element_colors_empty page) as He.
  unfold element_colors_script in He. injection He as ->.
  unfold kept_rules, encountered. rewrite <- kept_rule_text_list.
  apply (print_summary_runs _ _ []), kept_entries_have_rule.
Qed.

Lemma summary_reports_the_extraction_witness :
  exists info,
    extract_colors_from_page Sample.plain_page = Ok info /\
    print_summary info =
    (map Print
       [line_complete; "Found 3 CSS variables"; "Found 3 color-related CSS rules";
        "Found 0 element color samples"; line_variables;
        "  --primary-color: #0af"; "  --theme-x: 4px"; "  --hue-1: 4px";
        line_rules; "  a { color: red; }"; "  div { BACKGROUND: blue; }";
        "  .y { border: 0px; }"], Ok tt).
Proof.
  destruct (summary_reports_the_extraction Sample.plain_page eq_refl)
    as (info & He & Hs).
  exists info. split; [exact He|]. rewrite Hs. vm_compute. reflexivity.
Defined.

(** ** The run, path by path *)

Lemma extract_readable_result (page : Page) :
  forallb readable (styleSheets page) = true ->
  extract_colors_from_page page = Ok (extraction_result page).
Proof.
  intros R. rewrite (extract_readable page R). unfold extraction_result, kept_vars.
  pose proof (element_colors_empty page) as He.
  unfold element_colors_script in He. injection He as ->. reflexivity.
Qed.

Lemma handler_is_expected (w : World) (e : exn) :
  fst (main_except w e) = handler_events w e.
Proof.
  rewrite main_except_cases. unfold handler_events.
  now destruct (error_screenshot_raises w).
Qed.

Lemma guarded_is_expected (w : World) : fst (main_guarded w) = guarded_events w.
Proof.
  pose proof (main_guarded_cases w) as H. unfold guarded_events.
  destruct (goto_raises w) as [e|].
  { rewrite H. now rewrite handler_is_expected. }
  destruct (forallb readable (styleSheets (document w))) eqn:R.
  - pose proof (extract_readable_result _ R) as He. rewrite He in H.
    destruct (open_raises w) as [e|].
    { rewrite H. now rewrite handler_is_expected. }
    destruct H as (lines & r & Hp & ->).
    rewrite (summary_reports_the_extraction_lines (document w) R) in Hp.
    injection Hp as <- <-.
    destruct (screenshot_raises w) as [e|]; [|reflexivity].
    now rewrite handler_is_expected.
  - rewrite (extract_unreadable _ R) in H. rewrite H.
    now rewrite handler_is_expected.
Qed.

(** The monadic [main] and its description path by path agree. *)
Lemma run_is_expected (w : World) :
  trace w = run_events w /\ outcome w = run_outcome w.
Proof.
  unfold trace, outcome, run_events, run_outcome.
  destruct (launch_raises w) as [e|] eqn:Hl.
  { unfold main. rewrite Hl. now split. }
  destruct (new_page_raises w) as [e|] eqn:Hn.
  { unfold main. rewrite Hl, Hn. now split. }
  rewrite (main_with_page w Hl Hn). cbn [fst snd].
  now rewrite guarded_is_expected.
Qed.

Lemma files_of_prints (lines : list string) : files_of (map Print lines) = [].
Proof. induction lines; cbn; auto. Qed.

Lemma in_prints (line : string) (lines : list string) :
  In (Print line) (map Print lines) -> In line lines.
Proof.
  intros H. apply in_map_iff in H. destruct H as (l & Hl & Hin).
  injection Hl as ->. exact Hin.
Qed.

Lemma summary_lines_start (vars : dict) (rules : list string) (n : nat) :
  Forall (fun line => summary_start line = true) (summary_lines vars rules n).
Proof.
  assert (forall A (f : A -> string) (l : list A),
             (forall x, summary_start (f x) = true) ->
             Forall (fun line => summary_start line = true) (map f l)) as Hmap.
  { intros A f l Hf. induction l; constructor; auto. }
  unfold summary_lines. rewrite !Forall_app.
  split; [|split; [|split; [|split]]].
  - repeat (constructor; [reflexivity|]). constructor.
  - destruct vars as [|kv vars]; constructor; [reflexivity|].
    apply Hmap. intros x. unfold summary_start, var_line. cbn [append].
    now rewrite !orb_true_r.
  - constructor; [reflexivity | constructor].
  - apply Hmap. intros x. unfold summary_start, rule_line. cbn [append].
    now rewrite !orb_true_r.
  - destruct (_ <? _)%nat; constructor; [reflexivity | constructor].
Qed.

(** A message that is no summary line is not printed by the summary. *)
Lemma not_a_summary_line (msg : string) (vars : dict) (rules : list string) (n : nat) :
  summary_start msg = false ->
  ~ In (Print msg) (map Print (summary_lines vars rules n)).
Proof.
  intros Hm H. apply in_prints in H.
  pose proof (summary_lines_start vars rules n) as Hs.
  rewrite Forall_forall in Hs. apply Hs in H. congruence.
Qed.

(** Case analysis of a run along its paths. *)
Ltac run_paths w :=
  let Ht := fresh "Ht" in
  let Ho := fresh "Ho" in
  destruct (run_is_expected w) as [Ht Ho]; rewrite ?Ht, ?Ho; clear Ht Ho;
  unfold run_events, run_outcome, guarded_events, handler_events,
    all_succeed, has_page;
  destruct (launch_raises w) as [?|];
    [| destruct (new_page_raises w) as [?|];
       [| destruct (goto_raises w) as [?|];
          [| destruct (forallb readable (styleSheets (document w)));
             [destruct (open_raises w) as [?|];
              [| destruct (screenshot_raises w) as [?|]] |]]]];
  try destruct (error_screenshot_raises w) as [?|];
  unfold until_dump, until_extract, until_goto;
  rewrite ?files_of_app, ?files_of_prints, ?filter_app;
  cbn [files_of app filter is_goto is_close length ev_goto].

(** X9. A run leaves behind one of five sets of files: nothing, the error
    screenshot, the JSON file, the JSON file with the error screenshot, or
    the JSON file with the full-page screenshot.  So the two screenshots
    never occur together and the full-page screenshot never occurs without
    the JSON file. *)
Theorem run_leaves_one_of_five_file_sets (w : World) :
  files_of (trace w) = [] \/
  files_of (trace w) = [error_path] \/
  files_of (trace w) = [json_path] \/
  files_of (trace w) = [json_path; error_path] \/
  files_of (trace w) = [json_path; screenshot_path].
Proof. run_paths w; auto 10. Qed.

(** X10. The full-page screenshot is among the files of a run exactly
    when every step succeeded: start, page, navigation, every stylesheet
    readable, the JSON file opened, the screenshot taken. *)
Theorem full_page_screenshot_iff_all_succeed (w : World) :
  In screenshot_path (files_of (trace w)) <-> all_succeed w = true.
Proof.
  run_paths w; cbn [In]; split; intros H;
    solve [ reflexivity | auto
          | repeat (destruct H as [H|H]; try discriminate H); destruct H
          | repeat match type of H with
              | context [match ?x with _ => _ end] => destruct x
              end; discriminate H ].
Qed.

(** X11. Navigation is called once in a run that got its page and never
    in another one: no path of [main] navigates a second time. *)
Theorem navigates_once_with_a_page (w : World) :
  length (filter is_goto (trace w)) = if has_page w then 1 else 0.
Proof.
  assert (forall lines, filter is_goto (map Print lines) = []) as Hp
    by (induction lines; cbn; auto).
  run_paths w; rewrite ?Hp; reflexivity.
Qed.

(** X12. When the browser cannot be started or the page cannot be opened,
    the exception leaves [main]: nothing is navigated, written or
    captured, [browser.close] is not called, and stopping Playwright is
    the only cleanup. *)
Theorem startup_failure_propagates (w : World) (e : exn) :
  launch_raises w = Some e \/
  (launch_raises w = None /\ new_page_raises w = Some e) ->
  outcome w = Raise e /\
  files_of (trace w) = [] /\
  filter is_goto (trace w) = [] /\
  filter is_close (trace w) = [] /\
  exists before, trace w = (before ++ [PlaywrightStop])%list.
Proof.
  intros H. destruct (run_is_expected w) as [-> ->].
  unfold run_events, run_outcome.
  destruct H as [-> | [-> ->]]; (split; [|split; [|split; [|split]]]);
    try reflexivity.
  - now exists [Launch true].
  - now exists [Launch true; NewPage].
Qed.

Lemma startup_failure_propagates_witness :
  outcome Sample.no_page = Raise (PlaywrightError "Target closed") /\
  files_of (trace Sample.no_page) = [] /\
  filter is_goto (trace Sample.no_page) = [] /\
  filter is_close (trace Sample.no_page) = [] /\
  exists before, trace Sample.no_page = (before ++ [PlaywrightStop])%list.
Proof.
  apply (startup_failure_propagates Sample.no_page). right. split; reflexivity.
Defined.

(** Refuting membership of a message in a run given path by path. *)
Ltac absurd_in H :=
  repeat match type of H with
    | _ \/ _ => destruct H as [H|H]
    | False => destruct H
    | In _ (map Print _) => apply not_a_summary_line in H; [destruct H | reflexivity]
    | In _ (_ ++ _) => apply in_app_or in H
    | In _ (_ :: _) => cbn [In] in H
    | In _ [] => destruct H
    | _ = _ =>
        first [ discriminate H
              | unfold msg_error_saved, msg_saved, lf in H; cbn [append] in H;
                discriminate H ]
    end.

Ltac decide_in H :=
  first [ solve [repeat first [rewrite in_app_iff | progress cbn [In]]; pick_disjunct]
        | solve [absurd_in H] ].

(** X13. The two messages that report a saved screenshot are truthful:
    each is printed exactly when the screenshot it names is among the
    files of the run. *)
Theorem saved_messages_are_truthful (w : World) :
  (In (Print msg_error_saved) (trace w) <-> In error_path (files_of (trace w))) /\
  (In (Print msg_saved) (trace w) <-> In screenshot_path (files_of (trace w))).
Proof.
  run_paths w; split; split; intros H; decide_in H.
Qed.

Lemma print_events_only (ev : event) (lines : list string) :
  In ev (map Print lines) -> exists line, ev = Print line.
Proof.
  intros H. apply in_map_iff in H. destruct H as (line & <- & _). eauto.
Qed.

(** X14. The handler runs exactly when the [try] block was entered and
    one of its steps failed: the error screenshot is attempted in those
    runs and in no other. *)
Theorem handler_runs_iff_a_step_fails (w : World) :
  error_shot_attempted (trace w) <->
  has_page w = true /\ all_succeed w = false.
Proof.
  unfold error_shot_attempted.
  run_paths w; (split; [intros [saved H] | intros [Hp Hs]]);
    try discriminate;
    try solve [ split; [reflexivity|];
                repeat match goal with
                  | |- context [match ?x with _ => _ end] => destruct x
                  end; reflexivity ];
    try solve [ exists true;
                repeat first [rewrite in_app_iff | progress cbn [In]]; pick_disjunct ];
    try solve [ exists false;
                repeat first [rewrite in_app_iff | progress cbn [In]]; pick_disjunct ];
    try solve [ exfalso;
                repeat match type of H with
                  | _ \/ _ => destruct H as [H|H]
                  | False => destruct H
                  | In _ (map Print _) =>
                      apply print_events_only in H; destruct H as [? H]
                  | In _ (_ ++ _) => apply in_app_or in H
                  | In _ (_ :: _) => cbn [In] in H
                  | In _ [] => destruct H
                  | _ = _ => discriminate H
                  end ].
Qed.

(** ** The characters of a dump *)

Lemma all_plain_append (a b : string) :
  all_plain (a ++ b) = all_plain a && all_plain b.
Proof.
  induction a as [|c a IH]; [reflexivity|].
  cbn [append all_plain]. now rewrite IH, andb_assoc.
Qed.

Lemma escape_char_plain (c : ascii) : all_plain (Json.escape_char c) = true.
Proof. destruct c as [[|] [|] [|] [|] [|] [|] [|] [|]]; reflexivity. Qed.

Lemma encode_string_plain (s : string) : all_plain (Json.encode_string s) = true.
Proof.
  unfold Json.encode_string. cbn [all_plain]. rewrite all_plain_append.
  cbn [all_plain]. change (is_plain Json.quote) with true. cbn [andb].
  rewrite andb_true_r.
  induction s as [|c s IH]; [reflexivity|].
  cbn [Json.escape]. now rewrite all_plain_append, escape_char_plain, IH.
Qed.

Lemma nl_plain (level : nat) : all_plain (Json.nl level) = true.
Proof.
  unfold Json.nl. cbn [all_plain]. change (is_plain Json.newline) with true.
  cbn [andb]. induction (2 * level) as [|n IH]; [reflexivity | exact IH].
Qed.

Lemma items_text_plain (level : nat) (xs : list pyval) :
  Forall (fun v => forall level, all_plain (Json.dumps_at level v) = true) xs ->
  all_plain (items_text level xs) = true.
Proof.
  induction 1 as [|x xs Hx _ IH]; cbn [items_text].
  - now rewrite all_plain_append, nl_plain.
  - fold (items_text level xs).
    now rewrite !all_plain_append, nl_plain, Hx, IH.
Qed.

Lemma members_text_plain (level : nat) (kxs : list (string * pyval)) :
  Forall (fun kv => forall level, all_plain (Json.dumps_at level (snd kv)) = true) kxs ->
  all_plain (members_text level kxs) = true.
Proof.
  induction 1 as [|[k x] kxs Hx _ IH]; cbn [members_text].
  - now rewrite all_plain_append, nl_plain.
  - fold (members_text level kxs). cbn [snd] in Hx.
    now rewrite !all_plain_append, nl_plain, encode_string_plain, Hx, IH.
Qed.

Lemma dumps_at_plain (v : pyval) :
  forall level, all_plain (Json.dumps_at level v) = true.
Proof.
  induction v as [|s|l IH|d IH] using pyval_induction; intros level.
  - reflexivity.
  - apply encode_string_plain.
  - destruct l as [|x xs]; [reflexivity|]. rewrite dumps_list_cons.
    inversion IH as [|? ? Hx Hxs]; subst.
    now rewrite !all_plain_append, nl_plain, Hx, items_text_plain.
  - destruct d as [|[k x] kxs]; [reflexivity|]. rewrite dumps_dict_cons.
    inversion IH as [|? ? Hx Hxs]; subst. cbn [snd] in Hx.
    now rewrite !all_plain_append, nl_plain, encode_string_plain, Hx,
      members_text_plain.
Qed.

(** X15. Whatever strings a value holds, its dump consists of printable
    ASCII characters and line feeds only: every other character is
    written as an escape. *)
Theorem dump_is_plain_ascii (v : pyval) : all_plain (Json.dumps v) = true.
Proof. apply dumps_at_plain. Qed.

(** ** The launcher script *)

Lemma endswith_slash_append (a : string) (c : ascii) (b : string) :
  Launcher.endswith_slash (a ++ String c b) = Launcher.endswith_slash (String c b).
Proof.
  induction a as [|d a IH]; [reflexivity|].
  cbn [append]. destruct a as [|d' a']; cbn [append] in *.
  - reflexivity.
  - exact IH.
Qed.

Lemma config_dir_is (home : string) :
  Launcher.config_dir home = Launcher.rstrip_slash home ++ "/.claude".
Proof.
  unfold Launcher.config_dir, Launcher.expanduser. cbn [String.eqb orb].
  change (Str.startsWith "/.claude" "/") with true. cbn [orb].
  now destruct (Launcher.rstrip_slash home).
Qed.

Lemma join_config_dir (home name : string) (c : ascii) :
  "/"%char <> c ->
  Launcher.join (Launcher.config_dir home) (String c name) =
  Launcher.rstrip_slash home ++ "/.claude/" ++ String c name.
Proof.
  intros Hc. unfold Launcher.join. rewrite config_dir_is.
  unfold Str.startsWith. cbn [prefix].
  destruct (ascii_dec "/" c) as [E|_]; [contradiction|].
  rewrite endswith_slash_append. cbn [Launcher.endswith_slash].
  change (Ascii.eqb "e" "/") with false. rewrite orb_false_r.
  destruct (Launcher.rstrip_slash home) as [|d r]; cbn [append String.eqb];
    [reflexivity|].
  rewrite append_assoc. reflexivity.
Qed.

Lemma append_longer (a b : string) : b <> EmptyString -> a <> a ++ b.
Proof.
  intros Hb H. apply (f_equal String.length) in H.
  rewrite length_append in H. destruct b; [congruence | cbn in H; lia].
Qed.

Lemma config_and_backup_paths (home : string) :
  Launcher.config_path home =
    Launcher.rstrip_slash home ++ "/.claude/settings.json" /\
  Launcher.backup_file home = Launcher.config_path home ++ ".bak" /\
  Launcher.config_path home <> Launcher.backup_file home.
Proof.
  assert (Launcher.config_path home =
          Launcher.rstrip_slash home ++ "/.claude/settings.json") as Hc
    by (apply join_config_dir; discriminate).
  assert (Launcher.backup_file home = Launcher.config_path home ++ ".bak") as Hb.
  { rewrite Hc. unfold Launcher.backup_file.
    rewrite join_config_dir by discriminate. now rewrite append_assoc. }
  repeat split; auto. rewrite Hb. now apply append_longer.
Qed.

(** X16. Whatever the home directory, the settings are at
    [<home>/.claude/settings.json], the home directory taken without its
    trailing slashes; the backup is that path with [.bak] appended, and the
    two paths differ. *)
Theorem launcher_paths (home : string) :
  Launcher.config_path home =
    Launcher.rstrip_slash home ++ "/.claude/settings.json" /\
  Launcher.backup_file home = Launcher.config_path home ++ ".bak" /\
  Launcher.config_path home <> Launcher.backup_file home.
Proof. apply config_and_backup_paths. Qed.

Lemma paths_differ (home : string) :
  String.eqb (Launcher.config_path home) (Launcher.backup_file home) = false /\
  String.eqb (Launcher.backup_file home) (Launcher.config_path home) = false /\
  String.eqb (Launcher.backup_file home) EmptyString = false.
Proof.
  destruct (config_and_backup_paths home) as (Hc & Hb & Hd).
  repeat split.
  - now apply String.eqb_neq.
  - apply String.eqb_neq. congruence.
  - apply String.eqb_neq. rewrite Hb, Hc.
    now destruct (Launcher.rstrip_slash home).
Qed.

(** The files with which the command starts: with old settings the
    directory is there, and preparing returns. *)
Lemma prepare_with_settings (home token : string) (st : Launcher.state)
  (original : string) :
  Launcher.fs st (Launcher.config_path home) = Some original ->
  Launcher.prepare home token st =
  Ok ({| Launcher.fs :=
           Launcher.write
             (Launcher.write (Launcher.fs st) (Launcher.backup_file home) original)
             (Launcher.config_path home) (Json.dumps Launcher.new_config);
         Launcher.env :=
           Launcher.setenv
             (Launcher.setenv (Launcher.env st) "ANTHROPIC_AUTH_TOKEN" token)
             "ANTHROPIC_BASE_URL" Launcher.base_url |},
      Some (Launcher.backup_file home)).
Proof.
  intros Ho. destruct (paths_differ home) as (Hcb & _ & _).
  unfold Launcher.prepare, Launcher.path_exists, Launcher.copy2.
  rewrite Ho, Hcb. cbn [bind fst snd].
  unfold Launcher.make_config_dir, Launcher.makedirs. cbn [existsb].
  unfold Launcher.path_exists at 1. unfold Launcher.write at 1.
  rewrite Hcb, Ho. reflexivity.
Qed.

(** Without old settings, preparing does what making the directory does. *)
Lemma prepare_without_settings (home token : string) (st : Launcher.state) :
  Launcher.fs st (Launcher.config_path home) = None ->
  Launcher.prepare home token st =
  match Launcher.make_config_dir home (Launcher.fs st) with
  | Ok _ =>
      Ok ({| Launcher.fs :=
               Launcher.write (Launcher.fs st)
                 (Launcher.config_path home) (Json.dumps Launcher.new_config);
             Launcher.env :=
               Launcher.setenv
                 (Launcher.setenv (Launcher.env st) "ANTHROPIC_AUTH_TOKEN" token)
                 "ANTHROPIC_BASE_URL" Launcher.base_url |},
          None)
  | Raise e => Raise e
  end.
Proof.
  intros Ho. unfold Launcher.prepare, Launcher.path_exists. rewrite Ho.
  cbn [bind fst snd].
  now destruct (Launcher.make_config_dir home (Launcher.fs st)).
Qed.













(** X22. The environment is never put back: whenever the script returns,
    the two variables are still set, and every other variable is as it
    was. *)
Theorem environment_stays_changed (home token : string)
  (command : Launcher.environ -> Launcher.files -> Launcher.files)
  (st st' : Launcher.state) :
  Launcher.script home token command st = Ok st' ->
  Launcher.env st' "ANTHROPIC_AUTH_TOKEN" = Some token /\
  Launcher.env st' "ANTHROPIC_BASE_URL" = Some Launcher.base_url /\
  forall name,
    name <> "ANTHROPIC_AUTH_TOKEN" -> name <> "ANTHROPIC_BASE_URL" ->
    Launcher.env st' name = Launcher.env st name.
Proof.
  unfold Launcher.script.
  destruct (Launcher.fs st (Launcher.config_path home)) as [original|] eqn:Ho.
  - rewrite (prepare_with_settings home token st original Ho).
    cbn [bind fst snd Launcher.fs Launcher.env].
    destruct (Launcher.restore _ _ _) as [f4|e]; [|discriminate].
    cbn [bind]. intros H. injection H as <-. cbn [Launcher.env].
    unfold Launcher.setenv. repeat split.
    intros name Ht Hu. apply String.eqb_neq in Ht, Hu. now rewrite Hu, Ht.
  - rewrite (prepare_without_settings home token st Ho).
    destruct (Launcher.make_config_dir home (Launcher.fs st)) as [u|e];
      [|discriminate].
    cbn [bind fst snd Launcher.fs Launcher.env].
    destruct (Launcher.restore _ _ _) as [f4|e]; [|discriminate].
    cbn [bind]. intros H. injection H as <-. cbn [Launcher.env].
    unfold Launcher.setenv. repeat split.
    intros name Ht Hu. apply String.eqb_neq in Ht, Hu. now rewrite Hu, Ht.
Qed.

Lemma environment_stays_changed_witness :
  exists st',
    Launcher.script "/home/u" "t" Launcher.idle Launcher.with_settings = Ok st' /\
    Launcher.env st' "ANTHROPIC_AUTH_TOKEN" = Some "t" /\
    Launcher.env st' "ANTHROPIC_BASE_URL" = Some Launcher.base_url.
Proof.
  eexists. split; [reflexivity|].
  destruct (environment_stays_changed "/home/u" "t" Launcher.idle
              Launcher.with_settings _ eq_refl) as (Ht & Hu & _).
  split; [exact Ht | exact Hu].
Defined.



(** The directories above the settings directory of a home directory. *)
Example parents_of_config_dir :
  Launcher.parents (Launcher.config_dir "/home/u") = ["/home"; "/home/u"] /\
  Launcher.parents (Launcher.config_dir "/") = [] /\
  Launcher.parents (Launcher.config_dir "/srv//www/") = ["/srv"; "/srv//www"].
Proof. repeat split. Qed.

(** A regular file in place of the home directory: [os.mkdir] of the
    settings directory finds no directory to make it in. *)
Example file_for_home_run :
  Launcher.script "/home/u" "t" Launcher.idle Launcher.file_for_home =
  Raise (Launcher.not_a_directory "/home/u/.claude").
Proof. reflexivity. Qed.


